(** * NeuroFlex: the telemetry and control-loop engine of [App.tsx]

    A shallow embedding of the pieces of the dashboard that carry
    behaviour: the metrics tick, the auto-scaling interval, the event log
    ([addLog]) with the chart history, the narrator client
    ([analyzeSystem] and [generateOptimizationPlan] of the Gemini
    service), the UI handlers, the values derived for display, and the
    graph data built by [NetworkGraph].

    Conventions of the embedding.
    - A JavaScript [number] that holds a measurement (cpu load, memory,
      latency, injected load, a [Math.random()] draw) is an exact rational
      [Q] in the engine state; what is stated of these numbers are
      comparisons and bounds that rounding does not disturb.  Where
      rounding decides, the metrics tick is taken in IEEE doubles
      ([Double.nextMetrics]).
    - A JavaScript string is the Rocq string of its UTF-8 bytes.
    - [nodeCount] is an integer [Z]: it starts at 30 and is only ever
      replaced by [Math.max]/[Math.min]/[Math.floor] results over integers.
    - React state is threaded explicitly: every callback is a function
      [AppState -> AppState]; a [useRef] cell is a field of its own, so that
      the aliasing between [networkConfig] and [configRef.current] is
      visible.
    - What the callbacks read from the outside world ([new Date()],
      [Date.now()], [Math.random()], the remote model) is an explicit
      argument. *)

From Stdlib Require Import ZArith QArith Qround Qabs.
From Stdlib Require Import Bool String Ascii List Lia Lqa DecimalString.
From Stdlib Require DecimalPos DecimalZ FinFun Floats.
Import ListNotations.

Local Open Scope Z_scope.

(** ** JavaScript built-ins used by the program *)

Module JS.

(** [a > b] and [a < b] on numbers. *)
Definition num_gt (a b : Q) : bool := negb (Qle_bool a b).
Definition num_lt (a b : Q) : bool := negb (Qle_bool b a).

Definition Math_max (a b : Q) : Q := if Qle_bool a b then b else a.
Definition Math_min (a b : Q) : Q := if Qle_bool a b then a else b.
Definition Math_floor (x : Q) : Z := Qfloor x.

(** [Array.prototype.slice(start)]: a negative [start] counts from the
    end, and both directions saturate at the ends of the array. *)
Definition slice {A : Type} (start : Z) (l : list A) : list A :=
  let len := Z.of_nat (length l) in
  let k := if start <? 0 then Z.max (len + start) 0 else Z.min start len in
  skipn (Z.to_nat k) l.

(** Template interpolation [`${n}`] of an integer of magnitude below
    10^21 (from there on JavaScript prints an exponent). *)
Definition toString (n : Z) : string := NilZero.string_of_int (Z.to_int n).

(** [n.toString().padStart(2, '0')] for a clock field. *)
Definition padStart2 (n : Z) : string :=
  let s := toString n in
  if (String.length s <? 2)%nat then ("0" ++ s)%string else s.

(** A JavaScript string is held as the Rocq string of its UTF-8 bytes, so
    that every character it can carry has a place in it. *)

(** The code points that [String.prototype.trim] strips: the WhiteSpace
    and LineTerminator productions of ECMAScript (TAB, LF, VT, FF, CR, SP,
    NBSP, U+1680, U+2000 to U+200A, U+2028, U+2029, U+202F, U+205F,
    U+3000 and U+FEFF). *)
Definition whiteSpaceCodePoints : list N :=
  [9; 10; 11; 12; 13; 32; 160; 5760;
   8192; 8193; 8194; 8195; 8196; 8197; 8198; 8199; 8200; 8201; 8202;
   8232; 8233; 8239; 8287; 12288; 65279]%N.

(** The UTF-8 bytes of a code point below U+10000. *)
Definition utf8 (cp : N) : list ascii :=
  if (cp <? 128)%N then [ascii_of_N cp]
  else if (cp <? 2048)%N then
    [ascii_of_N (192 + cp / 64); ascii_of_N (128 + cp mod 64)]
  else
    [ascii_of_N (224 + cp / 4096); ascii_of_N (128 + (cp / 64) mod 64);
     ascii_of_N (128 + cp mod 64)].

Definition whiteSpace : list (list ascii) := map utf8 whiteSpaceCodePoints.

Fixpoint bytes_eqb (a b : list ascii) : bool :=
  match a, b with
  | [], [] => true
  | x :: a', y :: b' => Ascii.eqb x y && bytes_eqb a' b'
  | _, _ => false
  end.

(** Whether these bytes are one white space character. *)
Definition isWhiteSpace (bytes : list ascii) : bool :=
  existsb (bytes_eqb bytes) whiteSpace.

(** Dropping characters from the front for as long as [ws] accepts them; a
    character is one, two or three bytes long. *)
Fixpoint dropWhiteSpace (ws : list ascii -> bool) (cs : list ascii)
  : list ascii :=
  match cs with
  | [] => []
  | a :: r1 =>
      if ws [a] then dropWhiteSpace ws r1
      else
        match r1 with
        | [] => cs
        | b :: r2 =>
            if ws [a; b] then dropWhiteSpace ws r2
            else
              match r2 with
              | [] => cs
              | c :: r3 =>
                  if ws [a; b; c] then dropWhiteSpace ws r3 else cs
              end
        end
  end.

Definition trimStart (bytes : list ascii) : list ascii :=
  dropWhiteSpace isWhiteSpace bytes.

(** From the end the bytes of a character come last byte first. *)
Definition trimEnd (bytes : list ascii) : list ascii :=
  rev (dropWhiteSpace (fun w => isWhiteSpace (rev w)) (rev bytes)).

(** [String.prototype.trim()]. *)
Definition trim (s : string) : string :=
  string_of_list_ascii (trimEnd (trimStart (list_ascii_of_string s))).

(** Bytes that spell white space characters only (none included). *)
Inductive Blank : list ascii -> Prop :=
| Blank_nil : Blank []
| Blank_app (w rest : list ascii) :
    In w whiteSpace -> Blank rest -> Blank (w ++ rest).

(** Truthiness of a string: only the empty string is falsy. *)
Definition truthy (s : string) : bool :=
  match s with EmptyString => false | String _ _ => true end.

(** Outcome of evaluating an expression, or of awaiting a promise: a value,
    or a thrown exception (a rejection). *)
Inductive Completion (A : Type) : Type :=
| Returned (a : A)
| Thrown (error : string).
Arguments Returned {A} a.
Arguments Thrown {A} error.

Definition bind {A B : Type} (c : Completion A) (k : A -> Completion B)
  : Completion B :=
  match c with
  | Returned a => k a
  | Thrown e => Thrown e
  end.

(** [try { body } catch (error) { handler }]. *)
Definition try_catch {A : Type} (body : Completion A)
    (handler : string -> Completion A) : Completion A :=
  match body with
  | Returned a => Returned a
  | Thrown e => handler e
  end.

End JS.

Import JS.

Notation "x <- c ;; k" := (JS.bind c (fun x => k))
  (at level 61, c at next level, right associativity).

(** ** types.ts *)

Inductive Complexity : Type := LOW | MEDIUM | HIGH | CRITICAL.
Inductive Status : Type := OPTIMAL | STRAINED | OVERLOAD | IDLE.
Inductive LogType : Type := INFO | WARNING | ERROR | SYSTEM | AI.

Record SystemMetrics : Type := mkMetrics {
  cpuLoad : Q;
  memoryUsage : Q;
  networkLatency : Q;
  temperature : Q
}.

Record NetworkConfig : Type := mkConfig {
  nodeCount : Z;
  complexity : Complexity;
  status : Status
}.

Record LogEntry : Type := mkLog {
  id : string;
  timestamp : string;
  type : LogType;
  message : string
}.

(** An element of the chart history, [{ time, cpu, mem }]. *)
Record HistorySample : Type := mkSample {
  time : Z;
  cpu : Q;
  mem : Q
}.

(** ** App.tsx: constants and state *)

Definition TICK_RATE : Z := 1000.
Definition HISTORY_LENGTH : Z := 30.
Definition MIN_NODES : Z := 10.
Definition MAX_NODES : Z := 100.

(** The [useState] cells and the two [useRef] cells of [App]. *)
Record AppState : Type := mkApp {
  metrics : SystemMetrics;
  networkConfig : NetworkConfig;
  logs : list LogEntry;
  history : list HistorySample;
  autoScale : bool;
  artificialLoad : Q;
  metricsRef : SystemMetrics;
  configRef : NetworkConfig
}.

Definition initialMetrics : SystemMetrics :=
  {| cpuLoad := 20; memoryUsage := 30; networkLatency := 45; temperature := 40 |}.

Definition initialConfig : NetworkConfig :=
  {| nodeCount := 30; complexity := MEDIUM; status := OPTIMAL |}.

Definition initialState : AppState :=
  {| metrics := initialMetrics;
     networkConfig := initialConfig;
     logs := [];
     history := [];
     autoScale := true;
     artificialLoad := 0;
     metricsRef := initialMetrics;
     configRef := initialConfig |}.

(** The fields of [new Date()] that [addLog] reads. *)
Record Date : Type := mkDate {
  getHours : Z;
  getMinutes : Z;
  getSeconds : Z
}.

(** ** addLog *)

Definition timeString (now : Date) : string :=
  (padStart2 (getHours now) ++ ":" ++ padStart2 (getMinutes now) ++ ":"
     ++ padStart2 (getSeconds now))%string.

(** The updater passed to [setLogs]: keep the last 49 entries and append. *)
Definition pushLog (entry : LogEntry) (prev : list LogEntry) : list LogEntry :=
  slice (-49) prev ++ [entry].

(** [addLog(type, message)]; [now] is [new Date()] and [rnd] the nine
    characters cut out of [Math.random().toString(36)]. *)
Definition addLog (now : Date) (rnd : string) (ty : LogType) (msg : string)
    (st : AppState) : AppState :=
  let entry :=
    {| id := rnd; timestamp := timeString now; type := ty; message := msg |} in
  {| metrics := metrics st;
     networkConfig := networkConfig st;
     logs := pushLog entry (logs st);
     history := history st;
     autoScale := autoScale st;
     artificialLoad := artificialLoad st;
     metricsRef := metricsRef st;
     configRef := configRef st |}.

(** ** The metrics tick (simulation logic) *)

(** The sample computed by the updater passed to [setMetrics].  [rCpu],
    [rMem] and [rLat] are the three [Math.random()] draws, in the order in
    which the callback makes them; [nodes] is [networkConfig.nodeCount] and
    [load] is [artificialLoad], both captured by the effect. *)
Definition nextMetrics (rCpu rMem rLat : Q) (nodes : Z) (load : Q)
    (prev : SystemMetrics) : SystemMetrics :=
  let baseLoad := (10 + inject_Z nodes / 2)%Q in
  let noise := ((rCpu - 0.5) * 10)%Q in
  let newCpu := Math_min 100 (Math_max 5 (baseLoad + load + noise)%Q) in
  let memNoise := ((rMem - 0.5) * 5)%Q in
  let newMem :=
    Math_min 100
      (Math_max 10
         (memoryUsage prev + (newCpu - memoryUsage prev) * 0.1 + memNoise)%Q) in
  {| cpuLoad := newCpu;
     memoryUsage := newMem;
     networkLatency := (40 + newCpu * 0.5 + rLat * 20)%Q;
     temperature := (40 + newCpu * 0.4)%Q |}.

(** The updater passed to [setHistory]. *)
Definition pushHistory (sample : HistorySample) (h : list HistorySample)
  : list HistorySample :=
  slice (- (HISTORY_LENGTH - 1)) h ++ [sample].

(** One firing of the metrics interval; [dateNow] is [Date.now()]. *)
Definition metricsTick (rCpu rMem rLat : Q) (dateNow : Z) (st : AppState)
  : AppState :=
  let newMetrics :=
    nextMetrics rCpu rMem rLat (nodeCount (networkConfig st))
      (artificialLoad st) (metrics st) in
  {| metrics := newMetrics;
     networkConfig := networkConfig st;
     logs := logs st;
     history :=
       pushHistory
         {| time := dateNow; cpu := cpuLoad newMetrics;
            mem := memoryUsage newMetrics |}
         (history st);
     autoScale := autoScale st;
     artificialLoad := artificialLoad st;
     metricsRef := newMetrics;
     configRef := configRef st |}.

(** ** The auto-scaling interval *)

(** What one firing of the scaling callback decides from
    [metricsRef.current.cpuLoad] and [configRef.current.nodeCount]:
    [None] when it calls neither [setNetworkConfig] nor [addLog], and
    otherwise the object [next] it installs together with the message it
    logs.  ([next] spreads [prev] and then overwrites all three fields of a
    [NetworkConfig], so it does not depend on [prev].) *)
Definition scaleDecision (currentCpu : Q) (currentNodes : Z)
  : option (NetworkConfig * string) :=
  if num_gt currentCpu 85 then
    let reduction := Math_floor (inject_Z currentNodes * 0.2)%Q in
    let target := Z.max MIN_NODES (currentNodes - reduction) in
    if negb (target =? currentNodes) then
      Some ({| nodeCount := target;
               complexity := if target <? 30 then LOW else MEDIUM;
               status := STRAINED |},
            ("Critical load detected. Reducing active nodes to "
               ++ toString target ++ ".")%string)
    else None
  else if num_lt currentCpu 40 then
    let increase := 5 in
    let target := Z.min MAX_NODES (currentNodes + increase) in
    if negb (target =? currentNodes) then
      Some ({| nodeCount := target;
               complexity := if target >? 60 then HIGH else MEDIUM;
               status := OPTIMAL |},
            ("Available headroom. Expanding neural architecture to "
               ++ toString target ++ " nodes.")%string)
    else None
  else None.

(** [setNetworkConfig(prev => { ...; configRef.current = next; return next })]. *)
Definition setNetworkConfig (next : NetworkConfig) (st : AppState) : AppState :=
  {| metrics := metrics st;
     networkConfig := next;
     logs := logs st;
     history := history st;
     autoScale := autoScale st;
     artificialLoad := artificialLoad st;
     metricsRef := metricsRef st;
     configRef := next |}.

(** One firing of the scaling interval.  The interval only exists while
    [autoScale] is on. *)
Definition scaleTick (now : Date) (rnd : string) (st : AppState) : AppState :=
  match scaleDecision (cpuLoad (metricsRef st)) (nodeCount (configRef st)) with
  | Some (next, reason) => addLog now rnd SYSTEM reason (setNetworkConfig next st)
  | None => st
  end.

(** ** services/geminiService.ts: the narrator client *)

(** The part of a [generateContent] response that the client reads:
    [response.text], which may be [undefined]. *)
Record GenerateContentResponse : Type := mkResponse {
  text : option string
}.

(** The remote model, as seen from one call of [analyzeSystem]: whether
    building the client succeeds, and how [generateContent] completes for
    the data interpolated into the prompt (the metrics, the configuration
    and the last three log messages). *)
Record Gemini : Type := mkGemini {
  getAI : Completion unit;
  generateContent :
    SystemMetrics -> NetworkConfig -> list string ->
    Completion GenerateContentResponse
}.

Definition NOMINAL : string := "System nominal. Awaiting input.".
Definition FALLBACK : string :=
  "Telemetry link unstable. Running local heuristics.".

(** [response.text?.trim() || "System nominal. Awaiting input."] *)
Definition textOrNominal (response : GenerateContentResponse) : string :=
  match text response with
  | Some t => if truthy (trim t) then trim t else NOMINAL
  | None => NOMINAL
  end.

(** [analyzeSystem(metrics, config, previousLogs)].  The [console.error] of
    the handler writes to the console only and is left out. *)
Definition analyzeSystem (g : Gemini) (m : SystemMetrics) (config : NetworkConfig)
    (previousLogs : list string) : Completion string :=
  try_catch
    (ai <- getAI g ;;
     response <- generateContent g m config (slice (-3) previousLogs) ;;
     Returned (textOrNominal response))
    (fun error => Returned FALLBACK).

(** ** The narration interval *)

(** The call made by one firing of the narration interval: nothing unless
    the [Math.random()] draw [gate] exceeds 0.7. *)
Definition aiCall (gate : Q) (g : Gemini) (st : AppState)
  : option (Completion string) :=
  if num_gt gate 0.7 then
    Some (analyzeSystem g (metricsRef st) (configRef st)
            (map message (slice (-3) (logs st))))
  else None.

(** The continuation after [await]: it runs on whatever the state is by
    then.  A rejection would leave the callback before [addLog]. *)
Definition aiResume (thought : Completion string) (now : Date) (rnd : string)
    (st : AppState) : AppState :=
  match thought with
  | Returned t => addLog now rnd AI t st
  | Thrown _ => st
  end.

(** ** UI handlers *)

Definition setArtificialLoad (f : Q -> Q) (st : AppState) : AppState :=
  {| metrics := metrics st;
     networkConfig := networkConfig st;
     logs := logs st;
     history := history st;
     autoScale := autoScale st;
     artificialLoad := f (artificialLoad st);
     metricsRef := metricsRef st;
     configRef := configRef st |}.

Definition setAutoScale (b : bool) (st : AppState) : AppState :=
  {| metrics := metrics st;
     networkConfig := networkConfig st;
     logs := logs st;
     history := history st;
     autoScale := b;
     artificialLoad := artificialLoad st;
     metricsRef := metricsRef st;
     configRef := configRef st |}.

(** [handleStressTest], up to the timer ... *)
Definition handleStressTest (now : Date) (rnd : string) (st : AppState)
  : AppState :=
  setArtificialLoad (fun prev => Math_min (prev + 40) 80)
    (addLog now rnd WARNING "Injecting artificial stress test load..." st).

(** ... and the callback of its [setTimeout]. *)
Definition stressTimeout (now : Date) (rnd : string) (st : AppState)
  : AppState :=
  addLog now rnd INFO "Stress test complete. Releasing load."
    (setArtificialLoad (fun prev => Math_max 0 (prev - 40)) st).

Definition runDiagnostics (now : Date) (rnd : string) (st : AppState)
  : AppState :=
  addLog now rnd INFO
    "System diagnostics completed. All metrics within tolerance." st.

(** ** The engine as a transition system *)

(** Everything that can run against the shared state, with what it reads
    from outside. *)
Inductive Event : Type :=
| MetricsTick (rCpu rMem rLat : Q) (dateNow : Z)
| ScaleTick (now : Date) (rnd : string)
| AiResume (thought : Completion string) (now : Date) (rnd : string)
| StressTest (now : Date) (rnd : string)
| StressTimeout (now : Date) (rnd : string)
| Diagnostics (now : Date) (rnd : string)
| LoadSlider (value : Z)
| ToggleAutoScale.

Definition step (st : AppState) (ev : Event) : AppState :=
  match ev with
  | MetricsTick rCpu rMem rLat dateNow => metricsTick rCpu rMem rLat dateNow st
  | ScaleTick now rnd => if autoScale st then scaleTick now rnd st else st
  | AiResume thought now rnd => aiResume thought now rnd st
  | StressTest now rnd => handleStressTest now rnd st
  | StressTimeout now rnd => stressTimeout now rnd st
  | Diagnostics now rnd => runDiagnostics now rnd st
  | LoadSlider value => setArtificialLoad (fun _ => inject_Z value) st
  | ToggleAutoScale => setAutoScale (negb (autoScale st)) st
  end.

Definition run (st : AppState) (evs : list Event) : AppState :=
  fold_left step evs st.

(** ** Predicates used in the statements *)

(** The values of [status] and [complexity] that the engine writes. *)
Definition producedConfig (config : NetworkConfig) : Prop :=
  (status config = OPTIMAL \/ status config = STRAINED)
  /\ (complexity config = LOW \/ complexity config = MEDIUM
      \/ complexity config = HIGH).

(** Deciding whether a text is made of white space only (the empty text
    included). *)
Definition isBlank (s : string) : bool :=
  match trimStart (list_ascii_of_string s) with
  | [] => true
  | _ :: _ => false
  end.

(** Whether the bytes start with a character that [ws] accepts. *)
Definition headWs (ws : list ascii -> bool) (cs : list ascii) : bool :=
  match cs with
  | [] => false
  | a :: r1 =>
      ws [a]
      || match r1 with
         | [] => false
         | b :: r2 =>
             ws [a; b]
             || match r2 with
                | [] => false
                | c :: _ => ws [a; b; c]
                end
         end
  end.

(** Bytes that split into characters that [ws] accepts. *)
Inductive Groups (ws : list ascii -> bool) : list ascii -> Prop :=
| Groups_nil : Groups ws []
| Groups_app (w rest : list ascii) :
    ws w = true -> (1 <= length w <= 3)%nat -> Groups ws rest ->
    Groups ws (w ++ rest).

(** The shape shared by the two buffer updaters: keep the last [keep]
    elements and append one. *)
Definition pushKeeping {A : Type} (keep : nat) (l : list A) (e : A) : list A :=
  skipn (length l - keep) l ++ [e].

(** ** Sample inputs *)

Definition someId : string := "k3x9q0abz".

Definition noon : Date := {| getHours := 12; getMinutes := 0; getSeconds := 7 |}.

(** A state whose refs and state cells show the given cpu load and
    configuration, everything else as at start-up. *)
Definition stateWith (c : Q) (config : NetworkConfig) : AppState :=
  let m := {| cpuLoad := c; memoryUsage := 30; networkLatency := 45;
              temperature := 40 |} in
  {| metrics := m;
     networkConfig := config;
     logs := [];
     history := [];
     autoScale := true;
     artificialLoad := 0;
     metricsRef := m;
     configRef := config |}.

Definition idleWide : NetworkConfig :=
  {| nodeCount := 95; complexity := CRITICAL; status := IDLE |}.

Definition mediumFifty : NetworkConfig :=
  {| nodeCount := 50; complexity := MEDIUM; status := OPTIMAL |}.

Definition mediumSixty : NetworkConfig :=
  {| nodeCount := 60; complexity := MEDIUM; status := STRAINED |}.

Definition highFull : NetworkConfig :=
  {| nodeCount := 100; complexity := HIGH; status := OPTIMAL |}.

Definition lowTen : NetworkConfig :=
  {| nodeCount := 10; complexity := LOW; status := STRAINED |}.

(** A service that answers every request with the given text. *)
Definition answering (t : option string) : Gemini :=
  {| getAI := Returned tt;
     generateContent := fun _ _ _ => Returned {| text := t |} |}.

(** A space, an ideographic space (U+3000), a tab and a line feed. *)
Definition blankText : string :=
  String " " (String (ascii_of_nat 227) (String (ascii_of_nat 128)
    (String (ascii_of_nat 128) (String (ascii_of_nat 9)
      (String (ascii_of_nat 10) EmptyString))))).

(** A service whose generation call is rejected. *)
Definition rejecting : Gemini :=
  {| getAI := Returned tt;
     generateContent := fun _ _ _ => Thrown "429 RESOURCE_EXHAUSTED" |}.

(** ** services/geminiService.ts: generateOptimizationPlan *)

(** The remote model as seen from one call of [generateOptimizationPlan]:
    its prompt interpolates the metrics only. *)
Record PlanService : Type := mkPlanService {
  planGetAI : Completion unit;
  planGenerateContent : SystemMetrics -> Completion GenerateContentResponse
}.

Definition PLAN_FAILED : string := "Optimization plan generation failed.".
Definition PLAN_UNAVAILABLE : string :=
  "Unable to generate plan via neural link.".

(** [response.text || "Optimization plan generation failed."] *)
Definition textOrFailed (response : GenerateContentResponse) : string :=
  match text response with
  | Some t => if truthy t then t else PLAN_FAILED
  | None => PLAN_FAILED
  end.

Definition generateOptimizationPlan (g : PlanService) (m : SystemMetrics)
  : Completion string :=
  try_catch
    (ai <- planGetAI g ;;
     response <- planGenerateContent g m ;;
     Returned (textOrFailed response))
    (fun e => Returned PLAN_UNAVAILABLE).

(** ** App.tsx: values derived for display *)

(** The colour class of the STATUS tile. *)
Definition statusClass (s : Status) : string :=
  match s with
  | OPTIMAL => "text-emerald-400"
  | STRAINED => "text-yellow-400"
  | _ => "text-red-400"
  end.

Definition Complexity_eqb (a b : Complexity) : bool :=
  match a, b with
  | LOW, LOW | MEDIUM, MEDIUM | HIGH, HIGH | CRITICAL, CRITICAL => true
  | _, _ => false
  end.

(** [Array.prototype.indexOf], from position [i]: -1 when absent. *)
Fixpoint indexOfFrom (c : Complexity) (l : list Complexity) (i : Z) : Z :=
  match l with
  | [] => -1
  | c' :: l' => if Complexity_eqb c' c then i else indexOfFrom c l' (i + 1)
  end.

Definition levels : list Complexity := [LOW; MEDIUM; HIGH; CRITICAL].

(** The four segments of the complexity bar: segment [i] is lit when
    [levels.indexOf(networkConfig.complexity) >= i]. *)
Definition complexityBar (c : Complexity) : list bool :=
  map (fun i : nat => indexOfFrom c levels 0 >=? Z.of_nat i)
      (seq 0 (length levels)).

(** ** components/NetworkGraph.tsx: the graph data *)

Module NetworkGraph.

Record D3Node : Type := mkNode {
  id : string;
  group : Z;
  x : Q;
  y : Q
}.

Record D3Link : Type := mkLink {
  source : string;
  target : string;
  value : Z
}.

Record GraphData : Type := mkData {
  nodes : list D3Node;
  links : list D3Link
}.

(** The element that [Array.from] builds at index [i]; [r] is its
    [Math.random()] draw. *)
Definition nodeAt (r : Q) (i : nat) : D3Node :=
  {| id := ("node-" ++ toString (Z.of_nat i))%string;
     group := Math_floor (r * 3)%Q + 1;
     x := 0;
     y := 0 |}.

(** [Array.from({ length: nodeCount }, ...)]; [random k] is the value of
    the [k]-th call of [Math.random()] made by the memo, counted from 0. *)
Definition makeNodes (random : nat -> Q) (nodeCount : Z) : list D3Node :=
  map (fun i => nodeAt (random i) i) (seq 0 (Z.to_nat nodeCount)).

(** [nodes[j].id]: reading [id] off a missing element throws. *)
Definition idAt (nodes : list D3Node) (j : Z) : Completion string :=
  match (if j <? 0 then None else nth_error nodes (Z.to_nat j)) with
  | Some node => Returned (id node)
  | None =>
      Thrown "TypeError: Cannot read properties of undefined (reading 'id')"
  end.

(** The body of [nodes.forEach], run over the nodes still to visit: [i] is
    the index of the first of them, [k] the number of draws made so far and
    [acc] the links pushed so far. *)
Fixpoint eachNode (random : nat -> Q) (nodes todo : list D3Node) (i : Z)
    (k : nat) (acc : list D3Link) : Completion (list D3Link) :=
  match todo with
  | [] => Returned acc
  | node :: rest =>
      next <- idAt nodes ((i + 1) mod Z.of_nat (length nodes)) ;;
      let acc1 := acc ++ [{| source := id node; target := next; value := 1 |}] in
      if num_gt (random k) 0.7 then
        let targetIndex :=
          Math_floor (random (S k) * inject_Z (Z.of_nat (length nodes)))%Q in
        if negb (targetIndex =? i) then
          extra <- idAt nodes targetIndex ;;
          eachNode random nodes rest (i + 1) (S (S k))
            (acc1 ++ [{| source := id node; target := extra; value := 1 |}])
        else eachNode random nodes rest (i + 1) (S (S k)) acc1
      else eachNode random nodes rest (i + 1) (S k) acc1
  end.

(** The value of the [useMemo]. *)
Definition data (random : nat -> Q) (nodeCount : Z) : Completion GraphData :=
  let nodes := makeNodes random nodeCount in
  links <- eachNode random nodes nodes 0 (length nodes) [] ;;
  Returned {| nodes := nodes; links := links |}.

End NetworkGraph.

(** ** Node counts along a run *)

(** The targets of the two bands of the scaling callback, as functions of
    the node count read. *)
Definition scaledDown (n : Z) : Z :=
  Z.max MIN_NODES (n - Math_floor (inject_Z n * 0.2)%Q).

Definition scaledUp (n : Z) : Z := Z.min MAX_NODES (n + 5).

(** What auto-scaling keeps true of a configuration. *)
Definition consistentConfig (config : NetworkConfig) : Prop :=
  MIN_NODES <= nodeCount config <= MAX_NODES
  /\ (complexity config = LOW ->
      nodeCount config < 30 /\ status config = STRAINED)
  /\ (complexity config = HIGH ->
      60 < nodeCount config /\ status config = OPTIMAL).

(** ** Reading a clock field back *)

Definition isDigit (c : ascii) : bool :=
  ((48 <=? N_of_ascii c) && (N_of_ascii c <=? 57))%N.

Definition digitValue (c : ascii) : Z := Z.of_N (N_of_ascii c) - 48.

(** [s] is two decimal digits that spell [n]. *)
Definition spellsTwoDigits (n : Z) (s : string) : bool :=
  match s with
  | String a (String b EmptyString) =>
      isDigit a && isDigit b && (10 * digitValue a + digitValue b =? n)
  | _ => false
  end.

(** ** Well-formed links *)

(** A link of weight 1 between two of the given nodes. *)
Definition linkWithin (nodes : list NetworkGraph.D3Node)
    (l : NetworkGraph.D3Link) : Prop :=
  In (NetworkGraph.source l) (map NetworkGraph.id nodes)
  /\ In (NetworkGraph.target l) (map NetworkGraph.id nodes)
  /\ NetworkGraph.value l = 1.

Definition notLoop (l : NetworkGraph.D3Link) : Prop :=
  NetworkGraph.source l <> NetworkGraph.target l.

(** ** What a run appends *)

(** One call [addLog(type, message)], with the clock and the random id it
    reads. *)
Record LogCall : Type := mkCall {
  callNow : Date;
  callRnd : string;
  callType : LogType;
  callMessage : string
}.

(** The entry such a call appends. *)
Definition entryOf (c : LogCall) : LogEntry :=
  {| id := callRnd c; timestamp := timeString (callNow c);
     type := callType c; message := callMessage c |}.

(** A sequence of calls of [addLog], oldest first. *)
Definition addLogs (calls : list LogCall) (st : AppState) : AppState :=
  fold_left
    (fun s c => addLog (callNow c) (callRnd c) (callType c) (callMessage c) s)
    calls st.

(** The log entries that one event appends in state [st], read off the
    callbacks: the scaling firing logs its reason when it decides a
    change, the narration continuation logs the thought it resolved to,
    and the stress test, its timeout and the diagnostics button log their
    fixed messages. *)
Definition emitted (st : AppState) (ev : Event) : list LogEntry :=
  match ev with
  | MetricsTick _ _ _ _ => []
  | ScaleTick now rnd =>
      if autoScale st then
        match scaleDecision (cpuLoad (metricsRef st)) (nodeCount (configRef st))
        with
        | Some (_, reason) =>
            [{| id := rnd; timestamp := timeString now; type := SYSTEM;
                message := reason |}]
        | None => []
        end
      else []
  | AiResume (Returned thought) now rnd =>
      [{| id := rnd; timestamp := timeString now; type := AI;
          message := thought |}]
  | AiResume (Thrown _) _ _ => []
  | StressTest now rnd =>
      [{| id := rnd; timestamp := timeString now; type := WARNING;
          message := "Injecting artificial stress test load..." |}]
  | StressTimeout now rnd =>
      [{| id := rnd; timestamp := timeString now; type := INFO;
          message := "Stress test complete. Releasing load." |}]
  | Diagnostics now rnd =>
      [{| id := rnd; timestamp := timeString now; type := INFO;
          message :=
            "System diagnostics completed. All metrics within tolerance." |}]
  | LoadSlider _ => []
  | ToggleAutoScale => []
  end.

(** The samples that one event charts in state [st]: the metrics tick
    charts the cpu load and memory usage it has just computed. *)
Definition sampled (st : AppState) (ev : Event) : list HistorySample :=
  match ev with
  | MetricsTick rCpu rMem rLat dateNow =>
      let m := nextMetrics rCpu rMem rLat (nodeCount (networkConfig st))
                 (artificialLoad st) (metrics st) in
      [{| time := dateNow; cpu := cpuLoad m; mem := memoryUsage m |}]
  | _ => []
  end.

(** Everything a sequence of events appends to the log, and everything it
    charts, oldest first. *)
Fixpoint logged (st : AppState) (evs : list Event) : list LogEntry :=
  match evs with
  | [] => []
  | ev :: evs' => emitted st ev ++ logged (step st ev) evs'
  end.

Fixpoint charted (st : AppState) (evs : list Event) : list HistorySample :=
  match evs with
  | [] => []
  | ev :: evs' => sampled st ev ++ charted (step st ev) evs'
  end.

(** Fifty-one calls of [addLog], numbered from 1 in their message. *)
Definition numberedCalls : list LogCall :=
  map (fun i : nat =>
         {| callNow := noon; callRnd := someId; callType := INFO;
            callMessage := toString (Z.of_nat i) |})
      (seq 1 51).

(** ** The metrics tick as the code computes it, in binary64 *)

Module Double.

Import PrimFloat SpecFloat FloatOps.
#[local] Set Warnings "-inexact-float".
Local Open Scope float_scope.

(** [SystemMetrics] with its numbers as IEEE doubles. *)
Record SystemMetrics : Type := mkMetrics {
  cpuLoad : float;
  memoryUsage : float;
  networkLatency : float;
  temperature : float
}.

Definition isNegZero (x : float) : bool := is_zero x && get_sign x.
Definition isPosZero (x : float) : bool := is_zero x && negb (get_sign x).

(** [Math.max(a, b)]: NaN if either is NaN; [b] when it is greater, or
    when it is +0 against -0; otherwise [a]. *)
Definition Math_max (a b : float) : float :=
  if is_nan a || is_nan b then nan
  else if a <? b then b
  else if isNegZero a && isPosZero b then b
  else a.

(** [Math.min(a, b)]: NaN if either is NaN; [b] when it is smaller, or
    when it is -0 against +0; otherwise [a]. *)
Definition Math_min (a b : float) : float :=
  if is_nan a || is_nan b then nan
  else if b <? a then b
  else if isPosZero a && isNegZero b then b
  else a.

(** The value handed to the clamp of the cpu load. *)
Definition rawCpu (rCpu nodes load : float) : float :=
  let baseLoad := 10 + nodes / 2 in
  let noise := (rCpu - 0.5) * 10 in
  baseLoad + load + noise.

(** The value handed to the clamp of the memory usage. *)
Definition rawMem (rMem newCpu : float) (prev : SystemMetrics) : float :=
  let memNoise := (rMem - 0.5) * 5 in
  memoryUsage prev + (newCpu - memoryUsage prev) * 0.1 + memNoise.

(** The updater passed to [setMetrics], every operation rounded as
    JavaScript rounds it; [nodes] is the double holding
    [networkConfig.nodeCount]. *)
Definition nextMetrics (rCpu rMem rLat nodes load : float)
    (prev : SystemMetrics) : SystemMetrics :=
  let newCpu := Math_min 100 (Math_max 5 (rawCpu rCpu nodes load)) in
  let newMem := Math_min 100 (Math_max 10 (rawMem rMem newCpu prev)) in
  {| cpuLoad := newCpu;
     memoryUsage := newMem;
     networkLatency := 40 + (newCpu * 0.5) + (rLat * 20);
     temperature := 40 + (newCpu * 0.4) |}.



(** The metrics at start-up. *)
Definition initialMetrics : SystemMetrics :=
  {| cpuLoad := 20; memoryUsage := 30; networkLatency := 45;
     temperature := 40 |}.



End Double.

(** ** Inputs as the browser delivers them *)

(** [Math.random()] lies in [[0, 1)], and the range input only reports
    values between its [min] and [max]. *)
Definition inRange (ev : Event) : Prop :=
  match ev with
  | MetricsTick rCpu rMem rLat _ =>
      (0 <= rCpu < 1)%Q /\ (0 <= rMem < 1)%Q /\ (0 <= rLat < 1)%Q
  | LoadSlider value => 0 <= value <= 80
  | _ => True
  end.

Definition isScaleTick (ev : Event) : Prop :=
  match ev with
  | ScaleTick _ _ => True
  | _ => False
  end.

(** A draw sequence for the sample graph: every gate opens and every extra
    link aims at node 0. *)
Definition eagerDraws (k : nat) : Q :=
  if Nat.even k then 0.9%Q else 0%Q.

(** An answer of the model with white space around it: two spaces in
    front, a space and an ideographic space (U+3000) behind. *)
Definition paddedThought : string :=
  ("  Pruning idle synapses. "
     ++ String (ascii_of_nat 227) (String (ascii_of_nat 128)
          (String (ascii_of_nat 128) EmptyString)))%string.

(** A plan service that answers every request with the given text. *)
Definition planAnswering (t : option string) : PlanService :=
  {| planGetAI := Returned tt;
     planGenerateContent := fun _ => Returned {| text := t |} |}.

(** A state under injected load: 80 nodes and a cpu reading of 97. *)
Definition loadedState : AppState :=
  stateWith 97 {| nodeCount := 80; complexity := HIGH; status := OPTIMAL |}.

(** * Properties *)

(** ** Comparisons, clamps and slices *)

Lemma num_gt_true (a b : Q) : num_gt a b = true <-> (b < a)%Q.
Proof.
  unfold num_gt. rewrite negb_true_iff, <- not_true_iff_false, Qle_bool_iff.
  split; [apply Qnot_le_lt | apply Qlt_not_le].
Qed.

Lemma num_gt_false (a b : Q) : num_gt a b = false <-> (a <= b)%Q.
Proof.
  unfold num_gt. rewrite negb_false_iff. apply Qle_bool_iff.
Qed.

Lemma num_lt_true (a b : Q) : num_lt a b = true <-> (a < b)%Q.
Proof. apply num_gt_true. Qed.

Lemma num_lt_false (a b : Q) : num_lt a b = false <-> (b <= a)%Q.
Proof. apply num_gt_false. Qed.

(** On integers, [Math.floor(n * 0.2)] is the quotient of [n] by 5.  (The
    double nearest to 0.2 lies just above it, which does not move the floor
    of the product for a non-negative integer of the size of a node
    count.) *)
Lemma floor_fifth (n : Z) : Math_floor (inject_Z n * 0.2)%Q = n / 5.
Proof.
  unfold Math_floor, Qfloor, Qmult, inject_Z; simpl Qnum; simpl Qden.
  change (Z.pos (1 * 10)) with (5 * 2).
  apply Z.div_mul_cancel_r; discriminate.
Qed.

Lemma Math_max_cases (a b : Q) :
  (a <= b /\ Math_max a b = b)%Q \/ (b < a /\ Math_max a b = a)%Q.
Proof.
  unfold Math_max. destruct (Qle_bool a b) eqn:E.
  - left. split; [now apply Qle_bool_iff | reflexivity].
  - right. split; [| reflexivity].
    apply Qnot_le_lt. intro H. apply Qle_bool_iff in H. congruence.
Qed.

Lemma Math_min_cases (a b : Q) :
  (a <= b /\ Math_min a b = a)%Q \/ (b < a /\ Math_min a b = b)%Q.
Proof.
  unfold Math_min. destruct (Qle_bool a b) eqn:E.
  - left. split; [now apply Qle_bool_iff | reflexivity].
  - right. split; [| reflexivity].
    apply Qnot_le_lt. intro H. apply Qle_bool_iff in H. congruence.
Qed.

(** [Math.min(hi, Math.max(lo, x))] lands in [[lo, hi]]. *)
Lemma clamp_range (lo hi x : Q) :
  (lo <= hi -> lo <= Math_min hi (Math_max lo x) <= hi)%Q.
Proof.
  intros Hlh.
  destruct (Math_max_cases lo x) as [[H1 E1] | [H1 E1]]; rewrite E1.
  - destruct (Math_min_cases hi x) as [[H2 E2] | [H2 E2]]; rewrite E2;
      split; lra.
  - destruct (Math_min_cases hi lo) as [[H2 E2] | [H2 E2]]; rewrite E2;
      split; lra.
Qed.

Lemma slice_neg_skipn {A : Type} (k : nat) (l : list A) :
  (0 < k)%nat -> slice (- Z.of_nat k) l = skipn (length l - k) l.
Proof.
  intros Hk. unfold slice.
  replace (- Z.of_nat k <? 0) with true by (symmetry; apply Z.ltb_lt; lia).
  f_equal. lia.
Qed.

Lemma pushLog_skipn (e : LogEntry) (l : list LogEntry) :
  pushLog e l = pushKeeping 49 l e.
Proof.
  unfold pushLog, pushKeeping. now rewrite (slice_neg_skipn 49) by lia.
Qed.

Lemma pushHistory_skipn (s : HistorySample) (h : list HistorySample) :
  pushHistory s h = pushKeeping 29 h s.
Proof.
  unfold pushHistory, pushKeeping.
  change (- (HISTORY_LENGTH - 1)) with (- Z.of_nat 29).
  now rewrite slice_neg_skipn by lia.
Qed.

(** ** The auto-scaling interval *)

Lemma scaleTick_None (now : Date) (rnd : string) (st : AppState) :
  scaleDecision (cpuLoad (metricsRef st)) (nodeCount (configRef st)) = None ->
  scaleTick now rnd st = st.
Proof. unfold scaleTick. now intros ->. Qed.

Lemma scaleTick_Some (now : Date) (rnd : string) (st : AppState)
    (next : NetworkConfig) (reason : string) :
  scaleDecision (cpuLoad (metricsRef st)) (nodeCount (configRef st))
    = Some (next, reason) ->
  scaleTick now rnd st =
    {| metrics := metrics st;
       networkConfig := next;
       logs := slice (-49) (logs st)
                 ++ [{| id := rnd; timestamp := timeString now;
                        type := SYSTEM; message := reason |}];
       history := history st;
       autoScale := autoScale st;
       artificialLoad := artificialLoad st;
       metricsRef := metricsRef st;
       configRef := next |}.
Proof. unfold scaleTick. now intros ->. Qed.

Lemma scaleDecision_high (c : Q) (n : Z) :
  (85 < c)%Q ->
  scaleDecision c n =
    let target := Z.max MIN_NODES (n - Math_floor (inject_Z n * 0.2)%Q) in
    if negb (target =? n) then
      Some ({| nodeCount := target;
               complexity := if target <? 30 then LOW else MEDIUM;
               status := STRAINED |},
            ("Critical load detected. Reducing active nodes to "
               ++ toString target ++ ".")%string)
    else None.
Proof.
  intros H. unfold scaleDecision.
  now rewrite (proj2 (num_gt_true c 85) H).
Qed.

Lemma scaleDecision_low (c : Q) (n : Z) :
  (c < 40)%Q ->
  scaleDecision c n =
    let target := Z.min MAX_NODES (n + 5) in
    if negb (target =? n) then
      Some ({| nodeCount := target;
               complexity := if target >? 60 then HIGH else MEDIUM;
               status := OPTIMAL |},
            ("Available headroom. Expanding neural architecture to "
               ++ toString target ++ " nodes.")%string)
    else None.
Proof.
  intros H. unfold scaleDecision.
  assert (E : num_gt c 85 = false) by (apply num_gt_false; lra).
  rewrite E. now rewrite (proj2 (num_lt_true c 40) H).
Qed.

Lemma scaleDecision_mid (c : Q) (n : Z) :
  (40 <= c <= 85)%Q -> scaleDecision c n = None.
Proof.
  intros [Hlo Hhi]. unfold scaleDecision.
  rewrite (proj2 (num_gt_false c 85) Hhi).
  now rewrite (proj2 (num_lt_false c 40) Hlo).
Qed.

(** Whatever the readings, a decision to change never names the current
    node count. *)
Lemma scaleDecision_changes (c : Q) (n : Z) (next : NetworkConfig)
    (reason : string) :
  scaleDecision c n = Some (next, reason) -> nodeCount next <> n.
Proof.
  unfold scaleDecision.
  destruct (num_gt c 85).
  - cbv zeta.
    destruct (Z.eqb_spec (Z.max MIN_NODES (n - Math_floor (inject_Z n * 0.2)%Q)) n);
      simpl; [discriminate |].
    intros [= <- _]. assumption.
  - destruct (num_lt c 40); [| discriminate].
    cbv zeta.
    destruct (Z.eqb_spec (Z.min MAX_NODES (n + 5)) n); simpl; [discriminate |].
    intros [= <- _]. assumption.
Qed.

(** C1: in the band [40 <= cpu <= 85] one firing of the scaling interval
    decides nothing and leaves the whole state (node count, complexity,
    status, log) as it was, whatever the configuration. *)
Theorem dead_zone_is_noop (now : Date) (rnd : string) (st : AppState) :
  (40 <= cpuLoad (metricsRef st) <= 85)%Q ->
  scaleDecision (cpuLoad (metricsRef st)) (nodeCount (configRef st)) = None
  /\ scaleTick now rnd st = st.
Proof.
  intros H. pose proof (scaleDecision_mid _ (nodeCount (configRef st)) H) as E.
  split; [exact E | now apply scaleTick_None].
Qed.

Lemma dead_zone_is_noop_witness :
  scaleDecision 40 95 = None
  /\ scaleTick noon someId (stateWith 40 idleWide) = stateWith 40 idleWide.
Proof.
  apply (dead_zone_is_noop noon someId (stateWith 40 idleWide)).
  simpl. split; [apply Qle_refl | discriminate].
Defined.

(** C2: above 85 the target is [max(MIN_NODES, n - floor(n * 0.2))]; when
    it equals [n] nothing happens, otherwise the configuration becomes the
    target with status STRAINED and complexity LOW below 30 nodes and
    MEDIUM from 30 on, and one SYSTEM entry with the reduction message is
    pushed on the log.  At cpu 90, 50 nodes go to 40 (MEDIUM) and 12 nodes
    go to the floor of 10. *)
Theorem scale_down_rule :
  (forall (now : Date) (rnd : string) (st : AppState),
     let c := cpuLoad (metricsRef st) in
     let n := nodeCount (configRef st) in
     let target := Z.max MIN_NODES (n - Math_floor (inject_Z n * 0.2)%Q) in
     let next := {| nodeCount := target;
                    complexity := if target <? 30 then LOW else MEDIUM;
                    status := STRAINED |} in
     let reason := ("Critical load detected. Reducing active nodes to "
                      ++ toString target ++ ".")%string in
     (85 < c)%Q -> MIN_NODES <= n <= MAX_NODES ->
     (target = n -> scaleDecision c n = None /\ scaleTick now rnd st = st)
     /\ (target <> n ->
         scaleDecision c n = Some (next, reason)
         /\ scaleTick now rnd st =
              {| metrics := metrics st;
                 networkConfig := next;
                 logs := slice (-49) (logs st)
                           ++ [{| id := rnd; timestamp := timeString now;
                                  type := SYSTEM; message := reason |}];
                 history := history st;
                 autoScale := autoScale st;
                 artificialLoad := artificialLoad st;
                 metricsRef := metricsRef st;
                 configRef := next |}))
  /\ scaleDecision 90 50 =
       Some ({| nodeCount := 40; complexity := MEDIUM; status := STRAINED |},
             "Critical load detected. Reducing active nodes to 40."%string)
  /\ scaleDecision 90 12 =
       Some ({| nodeCount := 10; complexity := LOW; status := STRAINED |},
             "Critical load detected. Reducing active nodes to 10."%string).
Proof.
  split; [| split; reflexivity].
  intros now rnd st c n target next reason Hc _.
  pose proof (scaleDecision_high c n Hc) as E. cbv zeta in E.
  fold target in E. fold next in E. fold reason in E.
  split; intros Ht.
  - assert (E' : scaleDecision c n = None).
    { rewrite E. apply Z.eqb_eq in Ht. now rewrite Ht. }
    split; [exact E' | now apply scaleTick_None].
  - assert (E' : scaleDecision c n = Some (next, reason)).
    { rewrite E. apply Z.eqb_neq in Ht. now rewrite Ht. }
    split; [exact E' | now apply scaleTick_Some].
Qed.

Lemma scale_down_rule_witness :
  scaleDecision 90 50 =
    Some ({| nodeCount := 40; complexity := MEDIUM; status := STRAINED |},
          "Critical load detected. Reducing active nodes to 40."%string)
  /\ logs (scaleTick noon someId (stateWith 90 mediumFifty)) =
       [{| id := "k3x9q0abz"%string; timestamp := "12:00:07"%string;
           type := SYSTEM;
           message :=
             "Critical load detected. Reducing active nodes to 40."%string |}].
Proof.
  assert (Hc : (85 < cpuLoad (metricsRef (stateWith 90 mediumFifty)))%Q)
    by reflexivity.
  assert (Hn : MIN_NODES <= nodeCount (configRef (stateWith 90 mediumFifty))
               <= MAX_NODES) by (vm_compute; split; discriminate).
  assert (Ht : Z.max MIN_NODES
                 (nodeCount (configRef (stateWith 90 mediumFifty))
                  - Math_floor
                      (inject_Z (nodeCount (configRef (stateWith 90 mediumFifty)))
                       * 0.2)%Q)
               <> nodeCount (configRef (stateWith 90 mediumFifty)))
    by (vm_compute; discriminate).
  destruct (proj2 (proj1 scale_down_rule noon someId
                     (stateWith 90 mediumFifty) Hc Hn) Ht) as [Hd Hs].
  split; [exact Hd | rewrite Hs; reflexivity].
Defined.

(** C3: below 40 the target is [min(MAX_NODES, n + 5)]; when it equals [n]
    nothing happens, otherwise the configuration becomes the target with
    status OPTIMAL and complexity HIGH above 60 nodes and MEDIUM up to 60,
    and one SYSTEM entry with the expansion message is pushed on the log. *)
Theorem scale_up_rule (now : Date) (rnd : string) (st : AppState) :
  let c := cpuLoad (metricsRef st) in
  let n := nodeCount (configRef st) in
  let target := Z.min MAX_NODES (n + 5) in
  let next := {| nodeCount := target;
                 complexity := if target >? 60 then HIGH else MEDIUM;
                 status := OPTIMAL |} in
  let reason := ("Available headroom. Expanding neural architecture to "
                   ++ toString target ++ " nodes.")%string in
  (c < 40)%Q -> MIN_NODES <= n <= MAX_NODES ->
  (target = n -> scaleDecision c n = None /\ scaleTick now rnd st = st)
  /\ (target <> n ->
      scaleDecision c n = Some (next, reason)
      /\ scaleTick now rnd st =
           {| metrics := metrics st;
              networkConfig := next;
              logs := slice (-49) (logs st)
                        ++ [{| id := rnd; timestamp := timeString now;
                               type := SYSTEM; message := reason |}];
              history := history st;
              autoScale := autoScale st;
              artificialLoad := artificialLoad st;
              metricsRef := metricsRef st;
              configRef := next |}).
Proof.
  intros c n target next reason Hc _.
  pose proof (scaleDecision_low c n Hc) as E. cbv zeta in E.
  fold target in E. fold next in E. fold reason in E.
  split; intros Ht.
  - assert (E' : scaleDecision c n = None).
    { rewrite E. apply Z.eqb_eq in Ht. now rewrite Ht. }
    split; [exact E' | now apply scaleTick_None].
  - assert (E' : scaleDecision c n = Some (next, reason)).
    { rewrite E. apply Z.eqb_neq in Ht. now rewrite Ht. }
    split; [exact E' | now apply scaleTick_Some].
Qed.

Lemma scale_up_rule_witness :
  scaleDecision 25 60 =
    Some ({| nodeCount := 65; complexity := HIGH; status := OPTIMAL |},
          "Available headroom. Expanding neural architecture to 65 nodes."%string)
  /\ configRef (scaleTick noon someId (stateWith 25 mediumSixty)) =
       {| nodeCount := 65; complexity := HIGH; status := OPTIMAL |}.
Proof.
  assert (Hc : (cpuLoad (metricsRef (stateWith 25 mediumSixty)) < 40)%Q)
    by reflexivity.
  assert (Hn : MIN_NODES <= nodeCount (configRef (stateWith 25 mediumSixty))
               <= MAX_NODES) by (vm_compute; split; discriminate).
  assert (Ht : Z.min MAX_NODES
                 (nodeCount (configRef (stateWith 25 mediumSixty)) + 5)
               <> nodeCount (configRef (stateWith 25 mediumSixty)))
    by (vm_compute; discriminate).
  destruct (proj2 (scale_up_rule noon someId
                     (stateWith 25 mediumSixty) Hc Hn) Ht) as [Hd Hs].
  split; [exact Hd | rewrite Hs; reflexivity].
Defined.

(** C8: a firing never reports a change that is not one.  When the target
    computed in either band equals the current node count, nothing is
    decided and the state (log included) stays as it was; a decision, when
    there is one, carries a node count different from the current one, so
    the installed configuration is never the one read; and a firing that
    leaves the node count in place leaves the log in place too. *)
Theorem no_change_no_report (now : Date) (rnd : string) (st : AppState) :
  let c := cpuLoad (metricsRef st) in
  let n := nodeCount (configRef st) in
  ((85 < c)%Q ->
   Z.max MIN_NODES (n - Math_floor (inject_Z n * 0.2)%Q) = n ->
   scaleDecision c n = None /\ scaleTick now rnd st = st)
  /\ ((c < 40)%Q ->
      Z.min MAX_NODES (n + 5) = n ->
      scaleDecision c n = None /\ scaleTick now rnd st = st)
  /\ (forall next reason,
        scaleDecision c n = Some (next, reason) ->
        nodeCount next <> n /\ next <> configRef st)
  /\ (nodeCount (configRef (scaleTick now rnd st)) = n ->
      scaleTick now rnd st = st).
Proof.
  intros c n. repeat split.
  - rewrite (scaleDecision_high c n H). cbv zeta.
    apply Z.eqb_eq in H0. now rewrite H0.
  - apply scaleTick_None. fold c n. rewrite (scaleDecision_high c n H).
    cbv zeta. apply Z.eqb_eq in H0. now rewrite H0.
  - rewrite (scaleDecision_low c n H). cbv zeta.
    apply Z.eqb_eq in H0. now rewrite H0.
  - apply scaleTick_None. fold c n. rewrite (scaleDecision_low c n H).
    cbv zeta. apply Z.eqb_eq in H0. now rewrite H0.
  - eapply scaleDecision_changes; eassumption.
  - intros ->. eapply scaleDecision_changes; [eassumption | reflexivity].
  - intros Hn. destruct (scaleDecision c n) as [[next reason] |] eqn:E.
    + exfalso. apply (scaleDecision_changes c n next reason E).
      rewrite (scaleTick_Some now rnd st next reason E) in Hn. exact Hn.
    + now apply scaleTick_None.
Qed.

Lemma no_change_no_report_witness :
  scaleDecision 12 100 = None
  /\ scaleTick noon someId (stateWith 12 highFull) = stateWith 12 highFull.
Proof.
  apply (proj1 (proj2 (no_change_no_report noon someId (stateWith 12 highFull)))).
  - reflexivity.
  - reflexivity.
Defined.

(** C10: at [MIN_NODES] the reduction is [floor(10 * 0.2) = 2] and the
    target [max(10, 8)] is the current count, so above 85 nothing is
    decided and the state stays as it was; within the node bounds the
    scale-down band decides a change exactly from 11 nodes on. *)
Theorem floor_blocks_scale_down :
  Math_floor (inject_Z MIN_NODES * 0.2)%Q = 2
  /\ Z.max MIN_NODES (MIN_NODES - 2) = MIN_NODES
  /\ (forall (now : Date) (rnd : string) (st : AppState),
        (85 < cpuLoad (metricsRef st))%Q ->
        nodeCount (configRef st) = MIN_NODES ->
        scaleDecision (cpuLoad (metricsRef st)) (nodeCount (configRef st)) = None
        /\ scaleTick now rnd st = st)
  /\ (forall (c : Q) (n : Z),
        (85 < c)%Q -> MIN_NODES <= n <= MAX_NODES ->
        (scaleDecision c n <> None <-> 11 <= n)).
Proof.
  split; [reflexivity | split; [reflexivity | split]].
  - intros now rnd st Hc Hn.
    assert (E : scaleDecision (cpuLoad (metricsRef st)) (nodeCount (configRef st))
                = None).
    { rewrite (scaleDecision_high _ _ Hc), Hn. reflexivity. }
    split; [exact E | now apply scaleTick_None].
  - intros c n Hc Hn. rewrite (scaleDecision_high c n Hc). cbv zeta.
    rewrite floor_fifth. unfold MIN_NODES, MAX_NODES in *.
    destruct (Z.eqb_spec (Z.max 10 (n - n / 5)) n) as [E | E]; simpl.
    + split; [congruence |].
      intros; exfalso. Z.to_euclidean_division_equations. lia.
    + split; [intros _ | discriminate].
      Z.to_euclidean_division_equations. lia.
Qed.

Lemma floor_blocks_scale_down_witness :
  scaleDecision 97 10 = None
  /\ scaleTick noon someId (stateWith 97 lowTen) = stateWith 97 lowTen.
Proof.
  apply (proj1 (proj2 (proj2 floor_blocks_scale_down)) noon someId
           (stateWith 97 lowTen)).
  - reflexivity.
  - reflexivity.
Defined.

(** ** Reachable states *)

Lemma run_invariant (P : AppState -> Prop) :
  (forall st ev, P st -> P (step st ev)) ->
  forall evs st, P st -> P (run st evs).
Proof.
  intros Hstep evs. unfold run.
  induction evs as [| ev evs IH]; intros st Hst; simpl.
  - exact Hst.
  - apply IH, Hstep, Hst.
Qed.

Lemma scaleDecision_produced (c : Q) (n : Z) (next : NetworkConfig)
    (reason : string) :
  scaleDecision c n = Some (next, reason) -> producedConfig next.
Proof.
  unfold scaleDecision, producedConfig.
  destruct (num_gt c 85).
  - cbv zeta. destruct (negb _); [| discriminate].
    intros [= <- _]. simpl. destruct (_ <? 30); auto.
  - destruct (num_lt c 40); [| discriminate].
    cbv zeta. destruct (negb _); [| discriminate].
    intros [= <- _]. simpl. destruct (_ >? 60); auto.
Qed.

Lemma step_config (st : AppState) (ev : Event) :
  (networkConfig (step st ev) = networkConfig st
   /\ configRef (step st ev) = configRef st)
  \/ exists next reason,
       scaleDecision (cpuLoad (metricsRef st)) (nodeCount (configRef st))
         = Some (next, reason)
       /\ networkConfig (step st ev) = next
       /\ configRef (step st ev) = next.
Proof.
  destruct ev; simpl; try (left; split; reflexivity).
  - destruct (autoScale st); [| left; split; reflexivity].
    destruct (scaleDecision (cpuLoad (metricsRef st)) (nodeCount (configRef st)))
      as [[next reason] |] eqn:E.
    + right. exists next, reason.
      rewrite (scaleTick_Some now rnd st next reason E). auto.
    + rewrite (scaleTick_None now rnd st E). left; split; reflexivity.
  - destruct thought; left; split; reflexivity.
Qed.

(** C9: a scaling decision only ever writes status OPTIMAL or STRAINED and
    complexity LOW, MEDIUM or HIGH, and so, from the initial configuration
    (30 nodes, MEDIUM, OPTIMAL), after any sequence of engine events the
    configuration state and the configuration ref agree and hold such
    values only: OVERLOAD, IDLE and CRITICAL never appear. *)
Theorem only_produced_values :
  (forall (c : Q) (n : Z) (next : NetworkConfig) (reason : string),
     scaleDecision c n = Some (next, reason) ->
     (status next = OPTIMAL \/ status next = STRAINED)
     /\ (complexity next = LOW \/ complexity next = MEDIUM
         \/ complexity next = HIGH))
  /\ (forall evs : list Event,
        let config := networkConfig (run initialState evs) in
        configRef (run initialState evs) = config
        /\ (status config = OPTIMAL \/ status config = STRAINED)
        /\ (complexity config = LOW \/ complexity config = MEDIUM
            \/ complexity config = HIGH)
        /\ status config <> OVERLOAD /\ status config <> IDLE
        /\ complexity config <> CRITICAL).
Proof.
  split; [exact scaleDecision_produced |].
  intros evs config. subst config.
  assert (H : configRef (run initialState evs) = networkConfig (run initialState evs)
              /\ producedConfig (networkConfig (run initialState evs))).
  { apply (run_invariant
             (fun st => configRef st = networkConfig st
                        /\ producedConfig (networkConfig st))).
    - intros st ev [Href Hp].
      destruct (step_config st ev) as [[E1 E2] | (next & reason & Hd & E1 & E2)];
        rewrite E1, E2.
      + auto.
      + split; [reflexivity | exact (scaleDecision_produced _ _ _ _ Hd)].
    - split; [reflexivity |]. unfold producedConfig. simpl. auto. }
  destruct H as [Href [Hs Hc]].
  split; [exact Href |]. split; [exact Hs |]. split; [exact Hc |].
  repeat split; intros E; rewrite E in *;
    repeat match goal with H : _ \/ _ |- _ => destruct H end; discriminate.
Qed.

Lemma only_produced_values_witness :
  (status {| nodeCount := 40; complexity := MEDIUM; status := STRAINED |} = OPTIMAL
   \/ status {| nodeCount := 40; complexity := MEDIUM; status := STRAINED |}
        = STRAINED)
  /\ (complexity {| nodeCount := 40; complexity := MEDIUM; status := STRAINED |} = LOW
      \/ complexity {| nodeCount := 40; complexity := MEDIUM; status := STRAINED |}
           = MEDIUM
      \/ complexity {| nodeCount := 40; complexity := MEDIUM; status := STRAINED |}
           = HIGH).
Proof.
  apply (proj1 only_produced_values 90%Q 50
           {| nodeCount := 40; complexity := MEDIUM; status := STRAINED |}
           "Critical load detected. Reducing active nodes to 40."%string).
  reflexivity.
Defined.

(** ** The bounded buffers *)

Section Buffer.

Context {A : Type}.
Variable keep : nat.

Lemma pushKeeping_length (l : list A) (e : A) :
  length (pushKeeping keep l e) = S (Nat.min (length l) keep).
Proof.
  unfold pushKeeping. rewrite length_app, length_skipn. simpl. lia.
Qed.

Lemma pushKeeping_then_tail (l : list A) (e : A) (es : list A) :
  skipn (length (pushKeeping keep l e ++ es) - S keep)
    (pushKeeping keep l e ++ es)
  = skipn (length (l ++ e :: es) - S keep) (l ++ e :: es).
Proof.
  set (j := (length l - keep)%nat).
  set (l' := pushKeeping keep l e).
  assert (Hsplit : l ++ e :: es = firstn j l ++ (l' ++ es)).
  { unfold l', pushKeeping. fold j. rewrite <- (firstn_skipn j l) at 1.
    repeat rewrite <- app_assoc. reflexivity. }
  assert (Hj : length (firstn j l) = j) by (rewrite length_firstn; lia).
  assert (Hlen : (S keep <= length (l' ++ es) \/ j = 0)%nat).
  { unfold l'. rewrite length_app, pushKeeping_length. lia. }
  rewrite Hsplit. rewrite (length_app (firstn j l)), Hj.
  destruct Hlen as [Hlen | Hz].
  - replace (j + length (l' ++ es) - S keep)%nat
      with (j + (length (l' ++ es) - S keep))%nat by lia.
    rewrite (skipn_app _ (firstn j l)), Hj.
    rewrite (skipn_all2 (firstn j l)) by lia.
    simpl. f_equal. lia.
  - rewrite Hz. reflexivity.
Qed.

(** Pushing a whole sequence leaves the last [keep + 1] elements of
    everything seen, in the order of arrival. *)
Lemma pushes_keep_tail (es l : list A) :
  (length l <= S keep)%nat ->
  fold_left (pushKeeping keep) es l
  = skipn (length (l ++ es) - S keep) (l ++ es).
Proof.
  revert l. induction es as [| e es IH]; intros l Hl; simpl.
  - rewrite app_nil_r. now replace (length l - S keep)%nat with 0%nat by lia.
  - rewrite IH by (rewrite pushKeeping_length; lia).
    apply pushKeeping_then_tail.
Qed.

End Buffer.

Lemma fold_left_pointwise {S E : Type} (f g : S -> E -> S) :
  (forall s e, f s e = g s e) ->
  forall es s, fold_left f es s = fold_left g es s.
Proof.
  intros Hfg es. induction es as [| e es IH]; intros s; simpl.
  - reflexivity.
  - rewrite Hfg. apply IH.
Qed.

Lemma pushLog_length (e : LogEntry) (l : list LogEntry) :
  (length (pushLog e l) <= 50)%nat.
Proof. rewrite pushLog_skipn, pushKeeping_length. lia. Qed.

Lemma pushHistory_length (s : HistorySample) (h : list HistorySample) :
  (length (pushHistory s h) <= 30)%nat.
Proof. rewrite pushHistory_skipn, pushKeeping_length. lia. Qed.

Lemma pushLog_all (entries : list LogEntry) :
  fold_left (fun l e => pushLog e l) entries []
  = skipn (length entries - 50) entries.
Proof.
  transitivity (fold_left (pushKeeping 49) entries []).
  - apply fold_left_pointwise. intros l e. apply pushLog_skipn.
  - apply (pushes_keep_tail 49 entries []). simpl; lia.
Qed.

Lemma pushHistory_all (samples : list HistorySample) :
  fold_left (fun h s => pushHistory s h) samples []
  = skipn (length samples - 30) samples.
Proof.
  transitivity (fold_left (pushKeeping 29) samples []).
  - apply fold_left_pointwise. intros h s. apply pushHistory_skipn.
  - apply (pushes_keep_tail 29 samples []). simpl; lia.
Qed.

Lemma step_buffers (st : AppState) (ev : Event) :
  (length (logs st) <= 50)%nat /\ (length (history st) <= 30)%nat ->
  (length (logs (step st ev)) <= 50)%nat
  /\ (length (history (step st ev)) <= 30)%nat.
Proof.
  intros [Hl Hh].
  destruct ev; simpl;
    auto using pushLog_length, pushHistory_length.
  - destruct (autoScale st); [| auto].
    unfold scaleTick.
    destruct (scaleDecision _ _) as [[next reason] |]; simpl;
      auto using pushLog_length.
  - destruct thought; simpl; auto using pushLog_length.
Qed.

Lemma addLogs_logs (calls : list LogCall) (st : AppState) :
  logs (addLogs calls st)
  = fold_left (fun l e => pushLog e l) (map entryOf calls) (logs st).
Proof.
  unfold addLogs. revert st.
  induction calls as [| c calls IH]; intros st; simpl; [reflexivity |].
  now rewrite IH.
Qed.

Lemma pushLogs_from (entries l : list LogEntry) :
  (length l <= 50)%nat ->
  fold_left (fun l e => pushLog e l) entries l
  = skipn (length (l ++ entries) - 50) (l ++ entries).
Proof.
  intros Hl.
  transitivity (fold_left (pushKeeping 49) entries l).
  - apply fold_left_pointwise. intros l' e. apply pushLog_skipn.
  - apply (pushes_keep_tail 49 entries l). exact Hl.
Qed.

Lemma pushHistories_from (samples h : list HistorySample) :
  (length h <= 30)%nat ->
  fold_left (fun h s => pushHistory s h) samples h
  = skipn (length (h ++ samples) - 30) (h ++ samples).
Proof.
  intros Hh.
  transitivity (fold_left (pushKeeping 29) samples h).
  - apply fold_left_pointwise. intros h' s. apply pushHistory_skipn.
  - apply (pushes_keep_tail 29 samples h). exact Hh.
Qed.

(** What one event does to the two buffers: it pushes what it emits and
    what it samples, and nothing else. *)
Lemma step_pushes (st : AppState) (ev : Event) :
  logs (step st ev)
  = fold_left (fun l e => pushLog e l) (emitted st ev) (logs st)
  /\ history (step st ev)
     = fold_left (fun h s => pushHistory s h) (sampled st ev) (history st).
Proof.
  destruct ev; simpl; try (split; reflexivity).
  - destruct (autoScale st); [| split; reflexivity].
    unfold scaleTick.
    destruct (scaleDecision _ _) as [[next reason] |]; split; reflexivity.
  - destruct thought; split; reflexivity.
Qed.

Lemma run_pushes (evs : list Event) (st : AppState) :
  logs (run st evs)
  = fold_left (fun l e => pushLog e l) (logged st evs) (logs st)
  /\ history (run st evs)
     = fold_left (fun h s => pushHistory s h) (charted st evs) (history st).
Proof.
  unfold run. revert st.
  induction evs as [| ev evs IH]; intros st; [split; reflexivity |].
  cbn [fold_left logged charted]. rewrite !fold_left_app.
  destruct (step_pushes st ev) as [<- <-]. apply IH.
Qed.

(** C6: the log and the history are first-in first-out windows on what
    was appended.  Any sequence of [addLog] calls leaves the last 50 of
    the old entries followed by the new ones, in the order appended; after
    51 calls on the empty log it holds 50 entries, the oldest being the
    second one appended; after any sequence of engine events the log is
    the last 50 of the old entries followed by what the events logged and
    the history the last [HISTORY_LENGTH] of the old samples followed by
    what the metrics ticks charted, in order; so the log never holds more
    than 50 entries and the history never more than [HISTORY_LENGTH]
    samples. *)
Theorem buffers_bounded_fifo :
  (forall (calls : list LogCall) (st : AppState),
     (length (logs st) <= 50)%nat ->
     logs (addLogs calls st)
     = skipn (length (logs st ++ map entryOf calls) - 50)
         (logs st ++ map entryOf calls))
  /\ (forall calls : list LogCall,
        length calls = 51%nat ->
        length (logs (addLogs calls initialState)) = 50%nat
        /\ hd_error (logs (addLogs calls initialState))
           = option_map entryOf (nth_error calls 1))
  /\ (forall (evs : list Event) (st : AppState),
        (length (logs st) <= 50)%nat ->
        (length (history st) <= Z.to_nat HISTORY_LENGTH)%nat ->
        logs (run st evs)
        = skipn (length (logs st ++ logged st evs) - 50)
            (logs st ++ logged st evs)
        /\ history (run st evs)
           = skipn (length (history st ++ charted st evs)
                    - Z.to_nat HISTORY_LENGTH)
               (history st ++ charted st evs))
  /\ (forall evs : list Event,
        (length (logs (run initialState evs)) <= 50)%nat
        /\ (length (history (run initialState evs))
            <= Z.to_nat HISTORY_LENGTH)%nat)
  /\ (forall (e : LogEntry) (l : list LogEntry) (s : HistorySample)
             (h : list HistorySample),
        (length (pushLog e l) <= 50)%nat
        /\ (length (pushHistory s h) <= Z.to_nat HISTORY_LENGTH)%nat).
Proof.
  change (Z.to_nat HISTORY_LENGTH) with 30%nat.
  repeat apply conj.
  - intros calls st Hl. rewrite addLogs_logs. now apply pushLogs_from.
  - intros calls Hlen. rewrite addLogs_logs.
    rewrite pushLogs_from by (simpl; lia).
    cbn [logs initialState app]. rewrite length_map, Hlen.
    change (51 - 50)%nat with 1%nat.
    split; [rewrite length_skipn, length_map; lia |].
    destruct calls as [| a [| b rest]]; try discriminate. reflexivity.
  - intros evs st Hl Hh. destruct (run_pushes evs st) as [-> ->].
    split; [now apply pushLogs_from | now apply pushHistories_from].
  - intros evs.
    apply (run_invariant
             (fun st => (length (logs st) <= 50)%nat
                        /\ (length (history st) <= 30)%nat)).
    + intros st ev. apply step_buffers.
    + simpl. lia.
  - intros e l s h. split; [apply pushLog_length | apply pushHistory_length].
Qed.

Lemma buffers_bounded_fifo_witness :
  length (logs (addLogs numberedCalls initialState)) = 50%nat
  /\ option_map message (hd_error (logs (addLogs numberedCalls initialState)))
     = Some "2"%string.
Proof.
  destruct (proj1 (proj2 buffers_bounded_fifo) numberedCalls eq_refl)
    as [Hlen Hhd].
  split; [exact Hlen | rewrite Hhd; reflexivity].
Defined.

(** ** The metrics tick *)

Lemma nextMetrics_cpuLoad (rCpu rMem rLat : Q) (nodes : Z) (load : Q)
    (prev : SystemMetrics) :
  cpuLoad (nextMetrics rCpu rMem rLat nodes load prev)
  = Math_min 100
      (Math_max 5 (10 + inject_Z nodes / 2 + load + (rCpu - 0.5) * 10)%Q).
Proof. reflexivity. Qed.

Section DoubleTick.

Import PrimFloat.
Local Open Scope float_scope.








End DoubleTick.

(** ** The narrator client *)

Lemma bytes_eqb_eq (a b : list ascii) : bytes_eqb a b = true -> a = b.
Proof.
  revert b. induction a as [| x a IH]; intros [| y b]; simpl;
    try discriminate; [reflexivity |].
  intros H. apply andb_prop in H. destruct H as [Hx Hab].
  apply Ascii.eqb_eq in Hx. subst y. f_equal. now apply IH.
Qed.

Lemma isWhiteSpace_In (w : list ascii) :
  isWhiteSpace w = true -> In w whiteSpace.
Proof.
  unfold isWhiteSpace. intros H. apply existsb_exists in H.
  destruct H as (x & Hin & Heq). apply bytes_eqb_eq in Heq. now subst x.
Qed.

Section Dropping.

Variable ws : list ascii -> bool.

Lemma dropWhiteSpace_fixed (cs : list ascii) :
  headWs ws cs = false -> dropWhiteSpace ws cs = cs.
Proof.
  destruct cs as [| a [| b [| c r]]]; simpl; intros H;
    repeat (apply orb_false_elim in H; destruct H as [?H H]);
    repeat match goal with E : ws _ = false |- _ => rewrite E; clear E end;
    try rewrite H; reflexivity.
Qed.

(** What [dropWhiteSpace] removes is a run of accepted characters, and
    what it leaves does not start with one. *)
Lemma dropWhiteSpace_split (n : nat) (cs : list ascii) :
  (length cs <= n)%nat ->
  exists dropped,
    cs = dropped ++ dropWhiteSpace ws cs
    /\ Groups ws dropped
    /\ headWs ws (dropWhiteSpace ws cs) = false.
Proof.
  revert cs. induction n as [| n IH]; intros cs Hlen.
  - destruct cs; [| simpl in Hlen; lia].
    exists []. repeat split. constructor.
  - destruct cs as [| a r1]; [exists []; repeat split; constructor |].
    simpl in Hlen. cbn [dropWhiteSpace].
    destruct (ws [a]) eqn:E1.
    { destruct (IH r1 ltac:(lia)) as (d & Hd & Hg & Hh).
      exists ([a] ++ d). split; [simpl; now f_equal |].
      split; [constructor; simpl; auto; lia | exact Hh]. }
    destruct r1 as [| b r2].
    { exists []. split; [reflexivity |]. split; [constructor |].
      simpl. now rewrite E1. }
    simpl in Hlen. destruct (ws [a; b]) eqn:E2.
    { destruct (IH r2 ltac:(lia)) as (d & Hd & Hg & Hh).
      exists ([a; b] ++ d). split; [simpl; now do 2 f_equal |].
      split; [constructor; simpl; auto; lia | exact Hh]. }
    destruct r2 as [| c r3].
    { exists []. split; [reflexivity |]. split; [constructor |].
      simpl. now rewrite E1, E2. }
    simpl in Hlen. destruct (ws [a; b; c]) eqn:E3.
    { destruct (IH r3 ltac:(lia)) as (d & Hd & Hg & Hh).
      exists ([a; b; c] ++ d). split; [simpl; now do 3 f_equal |].
      split; [constructor; simpl; auto; lia | exact Hh]. }
    exists []. split; [reflexivity |]. split; [constructor |].
    simpl. now rewrite E1, E2, E3.
Qed.

Lemma headWs_prefix_true (p q : list ascii) :
  ws p = true -> (1 <= length p <= 3)%nat -> headWs ws (p ++ q) = true.
Proof.
  destruct p as [| a [| b [| c [| d p]]]]; simpl; intros H Hlen; try lia;
    rewrite H; rewrite ?orb_true_r; reflexivity.
Qed.

Lemma headWs_prefix_false (p q : list ascii) :
  headWs ws (p ++ q) = false -> headWs ws p = false.
Proof.
  destruct p as [| a [| b [| c p]]]; simpl; intros H; auto;
    repeat (apply orb_false_elim in H; destruct H as [?H H]);
    repeat match goal with E : ws _ = false |- _ => rewrite E; clear E end;
    reflexivity.
Qed.

Lemma Groups_last (cs : list ascii) :
  Groups ws cs -> cs <> [] ->
  exists init w,
    cs = init ++ w /\ ws w = true /\ (1 <= length w <= 3)%nat.
Proof.
  induction 1 as [| w rest Hw Hlen Hrest IH]; intros Hne; [congruence |].
  destruct rest as [| r rest'].
  - exists [], w. rewrite app_nil_r. auto.
  - destruct IH as (init & w' & E & Hw' & Hlen'); [discriminate |].
    exists (w ++ init), w'. rewrite E, app_assoc. auto.
Qed.

End Dropping.

Lemma trimStart_head (cs : list ascii) :
  headWs isWhiteSpace (trimStart cs) = false.
Proof.
  destruct (dropWhiteSpace_split isWhiteSpace (length cs) cs (le_n _))
    as (_ & _ & _ & H).
  exact H.
Qed.

(** What [trim] keeps has no white space at either end: trimming it again
    changes nothing. *)
Lemma trim_bytes_fixed (cs : list ascii) :
  trimStart (trimEnd (trimStart cs)) = trimEnd (trimStart cs)
  /\ trimEnd (trimEnd (trimStart cs)) = trimEnd (trimStart cs).
Proof.
  set (L := trimStart cs).
  set (ws' := fun w => isWhiteSpace (rev w)).
  destruct (dropWhiteSpace_split ws' (length (rev L)) (rev L) (le_n _))
    as (dropped & Hsplit & _ & Hhead).
  assert (HL : L = trimEnd L ++ rev dropped).
  { unfold trimEnd. fold ws'. rewrite <- rev_app_distr, <- Hsplit.
    now rewrite rev_involutive. }
  split.
  - apply dropWhiteSpace_fixed.
    apply (headWs_prefix_false isWhiteSpace _ (rev dropped)).
    rewrite <- HL. apply trimStart_head.
  - unfold trimEnd at 1. fold ws'. unfold trimEnd at 1. fold ws'.
    rewrite rev_involutive.
    rewrite (dropWhiteSpace_fixed ws' _ Hhead). reflexivity.
Qed.

Lemma trim_idempotent (s : string) : trim (trim s) = trim s.
Proof.
  unfold trim at 1. unfold trim at 1.
  rewrite list_ascii_of_string_of_list_ascii.
  destruct (trim_bytes_fixed (list_ascii_of_string s)) as [H1 H2].
  now rewrite H1, H2.
Qed.

Lemma trimStart_whiteSpace (w rest : list ascii) :
  In w whiteSpace -> trimStart (w ++ rest) = trimStart rest.
Proof.
  intros H. vm_compute in H.
  repeat (destruct H as [<- | H]; [reflexivity |]).
  contradiction.
Qed.

Lemma trimStart_Blank (cs : list ascii) : Blank cs -> trimStart cs = [].
Proof.
  induction 1 as [| w rest Hw _ IH]; [reflexivity |].
  now rewrite trimStart_whiteSpace.
Qed.

Lemma Groups_Blank (cs : list ascii) : Groups isWhiteSpace cs -> Blank cs.
Proof.
  induction 1 as [| w rest Hw _ _ IH]; constructor;
    [now apply isWhiteSpace_In | exact IH].
Qed.

Lemma trimStart_nil_Blank (cs : list ascii) : trimStart cs = [] -> Blank cs.
Proof.
  intros H.
  destruct (dropWhiteSpace_split isWhiteSpace (length cs) cs (le_n _))
    as (dropped & Hsplit & Hg & _).
  fold (trimStart cs) in Hsplit. rewrite H, app_nil_r in Hsplit.
  subst dropped. now apply Groups_Blank.
Qed.

Lemma string_of_list_ascii_nil (cs : list ascii) :
  string_of_list_ascii cs = EmptyString -> cs = [].
Proof. destruct cs; [reflexivity | discriminate]. Qed.

(** [trim] gives the empty string exactly on blank texts. *)
Lemma trim_empty_iff (s : string) :
  trim s = EmptyString <-> Blank (list_ascii_of_string s).
Proof.
  unfold trim. split.
  - intros H. apply string_of_list_ascii_nil in H.
    apply trimStart_nil_Blank.
    set (L := trimStart (list_ascii_of_string s)) in *.
    destruct L as [| c L'] eqn:EL; [reflexivity | exfalso].
    set (ws' := fun w => isWhiteSpace (rev w)).
    unfold trimEnd in H. fold ws' in H.
    apply (f_equal (@rev ascii)) in H. rewrite rev_involutive in H.
    simpl rev at 2 in H.
    destruct (dropWhiteSpace_split ws' (length (rev (c :: L')))
                (rev (c :: L')) (le_n _)) as (dropped & Hsplit & Hg & _).
    rewrite H, app_nil_r in Hsplit. rewrite <- Hsplit in Hg.
    destruct (Groups_last ws' _ Hg) as (init & w & E & Hw & Hlen).
    { intros E. apply (f_equal (@length ascii)) in E.
      rewrite length_rev in E. discriminate. }
    apply (f_equal (@rev ascii)) in E.
    rewrite rev_involutive, rev_app_distr in E.
    pose proof (trimStart_head (list_ascii_of_string s)) as Hhead.
    fold L in Hhead. rewrite EL, E in Hhead.
    rewrite (headWs_prefix_true isWhiteSpace (rev w) (rev init)) in Hhead;
      [discriminate | exact Hw | now rewrite length_rev].
  - intros H. now rewrite (trimStart_Blank _ H).
Qed.

Lemma isBlank_Blank (s : string) :
  isBlank s = true <-> Blank (list_ascii_of_string s).
Proof.
  unfold isBlank. split.
  - destruct (trimStart (list_ascii_of_string s)) eqn:E; [| discriminate].
    intros _. now apply trimStart_nil_Blank.
  - intros H. now rewrite (trimStart_Blank _ H).
Qed.

Lemma trim_truthy (s : string) :
  truthy (trim s) = false <-> Blank (list_ascii_of_string s).
Proof.
  rewrite <- trim_empty_iff. destruct (trim s); simpl; split;
    congruence.
Qed.

Lemma textOrNominal_blank (t : string) :
  Blank (list_ascii_of_string t) ->
  textOrNominal {| text := Some t |} = NOMINAL.
Proof.
  intros H. unfold textOrNominal. simpl.
  now rewrite (proj2 (trim_truthy t) H).
Qed.

Lemma analyzeSystem_answer (g : Gemini) (m : SystemMetrics)
    (config : NetworkConfig) (previousLogs : list string)
    (ai : unit) (response : GenerateContentResponse) :
  getAI g = Returned ai ->
  generateContent g m config (slice (-3) previousLogs) = Returned response ->
  analyzeSystem g m config previousLogs = Returned (textOrNominal response).
Proof. unfold analyzeSystem. intros -> . simpl. now intros ->. Qed.

Lemma analyzeSystem_caught (g : Gemini) (m : SystemMetrics)
    (config : NetworkConfig) (previousLogs : list string) :
  (exists e, getAI g = Thrown e)
  \/ (exists e, generateContent g m config (slice (-3) previousLogs) = Thrown e) ->
  analyzeSystem g m config previousLogs = Returned FALLBACK.
Proof.
  unfold analyzeSystem. intros [[e He] | [e He]].
  - now rewrite He.
  - destruct (getAI g); simpl; [now rewrite He | reflexivity].
Qed.

(** C4, amended: when the generation call succeeds with an empty or
    white-space-only text (any run of the characters [trim] strips, or no
    text at all), [analyzeSystem] does not take the failure path: it
    resolves to the fixed string "System nominal. Awaiting input.". *)
Theorem blank_response_is_nominal (g : Gemini) (m : SystemMetrics)
    (config : NetworkConfig) (previousLogs : list string)
    (ai : unit) (response : GenerateContentResponse) :
  getAI g = Returned ai ->
  generateContent g m config (slice (-3) previousLogs) = Returned response ->
  (text response = None
   \/ exists t, text response = Some t /\ Blank (list_ascii_of_string t)) ->
  analyzeSystem g m config previousLogs
  = Returned "System nominal. Awaiting input."%string.
Proof.
  intros Hai Hgen Hblank.
  rewrite (analyzeSystem_answer g m config previousLogs ai response Hai Hgen).
  f_equal. destruct response as [t]. simpl in Hblank.
  destruct Hblank as [-> | (s & -> & Hs)].
  - reflexivity.
  - now apply textOrNominal_blank.
Qed.

Lemma blank_response_is_nominal_witness :
  analyzeSystem (answering (Some blankText)) initialMetrics initialConfig []
  = Returned "System nominal. Awaiting input."%string.
Proof.
  apply (blank_response_is_nominal (answering (Some blankText)) initialMetrics
           initialConfig [] tt {| text := Some blankText |}).
  - reflexivity.
  - reflexivity.
  - right. exists blankText. split; [reflexivity |].
    apply isBlank_Blank. reflexivity.
Defined.

(** C4 as first stated fails: on a successful call whose text is blank the
    result is not the failure fallback. *)
Lemma blank_response_is_not_fallback :
  getAI (answering (Some blankText)) = Returned tt
  /\ generateContent (answering (Some blankText)) initialMetrics initialConfig
       (slice (-3) []) = Returned {| text := Some blankText |}
  /\ Blank (list_ascii_of_string blankText)
  /\ analyzeSystem (answering (Some blankText)) initialMetrics initialConfig []
     <> Returned "Telemetry link unstable. Running local heuristics."%string.
Proof.
  split; [reflexivity | split; [reflexivity | split]].
  - apply isBlank_Blank. reflexivity.
  - vm_compute. discriminate.
Qed.

(** C7: [analyzeSystem] always resolves to a string; when building the
    client or the generation call throws (or rejects) it resolves to
    "Telemetry link unstable. Running local heuristics."; and the narration
    interval, once its gate draw passed 0.7, then pushes exactly one entry
    on the log as it is at that moment, of type AI, carrying that text. *)
Theorem narration_never_throws :
  (forall (g : Gemini) (m : SystemMetrics) (config : NetworkConfig)
          (previousLogs : list string),
     exists thought, analyzeSystem g m config previousLogs = Returned thought)
  /\ (forall (g : Gemini) (m : SystemMetrics) (config : NetworkConfig)
             (previousLogs : list string),
        (exists e, getAI g = Thrown e)
        \/ (exists e,
              generateContent g m config (slice (-3) previousLogs) = Thrown e) ->
        analyzeSystem g m config previousLogs
        = Returned "Telemetry link unstable. Running local heuristics."%string)
  /\ (forall (gate : Q) (g : Gemini) (st later : AppState) (now : Date)
             (rnd : string),
        (0.7 < gate)%Q ->
        (exists e, getAI g = Thrown e)
        \/ (exists e,
              generateContent g (metricsRef st) (configRef st)
                (slice (-3) (map message (slice (-3) (logs st)))) = Thrown e) ->
        exists thought,
          aiCall gate g st = Some thought
          /\ thought
             = Returned "Telemetry link unstable. Running local heuristics."%string
          /\ aiResume thought now rnd later =
               {| metrics := metrics later;
                  networkConfig := networkConfig later;
                  logs := slice (-49) (logs later)
                            ++ [{| id := rnd; timestamp := timeString now;
                                   type := AI;
                                   message :=
                                     "Telemetry link unstable. Running local heuristics."
                                |}];
                  history := history later;
                  autoScale := autoScale later;
                  artificialLoad := artificialLoad later;
                  metricsRef := metricsRef later;
                  configRef := configRef later |}).
Proof.
  split; [| split].
  - intros g m config previousLogs. unfold analyzeSystem.
    destruct (getAI g) as [ai | e]; simpl; [| eauto].
    destruct (generateContent g m config (slice (-3) previousLogs));
      simpl; eauto.
  - exact analyzeSystem_caught.
  - intros gate g st later now rnd Hgate Hthrow.
    exists (Returned FALLBACK). split; [| split; reflexivity].
    unfold aiCall. rewrite (proj2 (num_gt_true gate 0.7) Hgate).
    f_equal. now apply analyzeSystem_caught.
Qed.

Lemma narration_never_throws_witness :
  analyzeSystem rejecting initialMetrics initialConfig []
  = Returned "Telemetry link unstable. Running local heuristics."%string.
Proof.
  apply (proj1 (proj2 narration_never_throws) rejecting initialMetrics
           initialConfig []).
  right. exists "429 RESOURCE_EXHAUSTED"%string. reflexivity.
Defined.

(** * Further properties *)

(** ** Auto-scaling along a run *)

Lemma scaledDown_fifth (n : Z) : scaledDown n = Z.max 10 (n - n / 5).
Proof. unfold scaledDown. now rewrite floor_fifth. Qed.

Lemma scaledDown_range (n : Z) :
  MIN_NODES <= n <= MAX_NODES -> MIN_NODES <= scaledDown n <= n.
Proof.
  rewrite scaledDown_fifth. unfold MIN_NODES, MAX_NODES. intros H.
  Z.to_euclidean_division_equations. lia.
Qed.

Lemma scaledUp_range (n : Z) :
  MIN_NODES <= n <= MAX_NODES -> n <= scaledUp n <= MAX_NODES.
Proof. unfold scaledUp, MIN_NODES, MAX_NODES. lia. Qed.

Lemma scaleDecision_consistent (c : Q) (n : Z) (next : NetworkConfig)
    (reason : string) :
  MIN_NODES <= n <= MAX_NODES ->
  scaleDecision c n = Some (next, reason) -> consistentConfig next.
Proof.
  intros Hn. unfold scaleDecision.
  fold (scaledDown n). fold (scaledUp n).
  pose proof (scaledDown_range n Hn) as Hd.
  pose proof (scaledUp_range n Hn) as Hu.
  unfold consistentConfig, MIN_NODES, MAX_NODES in *.
  destruct (num_gt c 85).
  - cbv zeta. destruct (negb _); [| discriminate].
    intros [= <- _]. simpl.
    destruct (Z.ltb_spec (scaledDown n) 30);
      repeat split; try lia; try discriminate.
  - destruct (num_lt c 40); [| discriminate].
    cbv zeta. destruct (negb _); [| discriminate].
    intros [= <- _]. simpl.
    destruct (scaledUp n >? 60) eqn:E;
      repeat split; try lia; try discriminate.
Qed.

(** X1: from start-up, after any sequence of engine events, the
    configuration state and the configuration ref agree, the node count is
    within [[MIN_NODES, MAX_NODES]], complexity LOW only goes with fewer
    than 30 nodes and status STRAINED, and complexity HIGH only with more
    than 60 nodes and status OPTIMAL. *)
Theorem reachable_config_consistent (evs : list Event) :
  configRef (run initialState evs) = networkConfig (run initialState evs)
  /\ MIN_NODES <= nodeCount (networkConfig (run initialState evs)) <= MAX_NODES
  /\ (complexity (networkConfig (run initialState evs)) = LOW ->
      nodeCount (networkConfig (run initialState evs)) < 30
      /\ status (networkConfig (run initialState evs)) = STRAINED)
  /\ (complexity (networkConfig (run initialState evs)) = HIGH ->
      60 < nodeCount (networkConfig (run initialState evs))
      /\ status (networkConfig (run initialState evs)) = OPTIMAL).
Proof.
  apply (run_invariant
           (fun st => configRef st = networkConfig st
                      /\ consistentConfig (networkConfig st))).
  - intros st ev [Href Hc].
    destruct (step_config st ev) as [[E1 E2] | (next & reason & Hd & E1 & E2)];
      rewrite E1, E2.
    + auto.
    + split; [reflexivity |].
      rewrite Href in Hd.
      exact (scaleDecision_consistent _ _ _ _ (proj1 Hc) Hd).
  - split; [reflexivity |]. unfold consistentConfig, MIN_NODES, MAX_NODES.
    simpl. repeat split; try lia; discriminate.
Qed.

Lemma step_ScaleTick_high (now : Date) (rnd : string) (st : AppState) :
  autoScale st = true ->
  (85 < cpuLoad (metricsRef st))%Q ->
  autoScale (step st (ScaleTick now rnd)) = true
  /\ metricsRef (step st (ScaleTick now rnd)) = metricsRef st
  /\ nodeCount (configRef (step st (ScaleTick now rnd)))
     = scaledDown (nodeCount (configRef st)).
Proof.
  intros Ha Hc. simpl. rewrite Ha. unfold scaleTick.
  rewrite (scaleDecision_high _ _ Hc). cbv zeta.
  fold (scaledDown (nodeCount (configRef st))).
  destruct (Z.eqb_spec (scaledDown (nodeCount (configRef st)))
              (nodeCount (configRef st))) as [E | E]; simpl; auto.
Qed.

Lemma step_ScaleTick_low (now : Date) (rnd : string) (st : AppState) :
  autoScale st = true ->
  (cpuLoad (metricsRef st) < 40)%Q ->
  autoScale (step st (ScaleTick now rnd)) = true
  /\ metricsRef (step st (ScaleTick now rnd)) = metricsRef st
  /\ nodeCount (configRef (step st (ScaleTick now rnd)))
     = scaledUp (nodeCount (configRef st)).
Proof.
  intros Ha Hc. simpl. rewrite Ha. unfold scaleTick.
  rewrite (scaleDecision_low _ _ Hc). cbv zeta.
  fold (scaledUp (nodeCount (configRef st))).
  destruct (Z.eqb_spec (scaledUp (nodeCount (configRef st)))
              (nodeCount (configRef st))) as [E | E]; simpl; auto.
Qed.

(** Firing the scaling interval repeatedly while the cpu reading stays in
    one band applies that band's target function once per firing. *)
Lemma run_ScaleTicks (f : Z -> Z) (band : Q -> Prop) :
  (forall now rnd st,
     autoScale st = true -> band (cpuLoad (metricsRef st)) ->
     autoScale (step st (ScaleTick now rnd)) = true
     /\ metricsRef (step st (ScaleTick now rnd)) = metricsRef st
     /\ nodeCount (configRef (step st (ScaleTick now rnd)))
        = f (nodeCount (configRef st))) ->
  forall ticks st,
    autoScale st = true -> band (cpuLoad (metricsRef st)) ->
    Forall isScaleTick ticks ->
    nodeCount (configRef (run st ticks))
    = Nat.iter (length ticks) f (nodeCount (configRef st)).
Proof.
  intros Hstep ticks. unfold run.
  induction ticks as [| ev ticks IH]; intros st Ha Hb Hall; [reflexivity |].
  inversion Hall as [| ? ? Hev Hrest]; subst.
  destruct ev; try contradiction.
  destruct (Hstep now rnd st Ha Hb) as (Ha' & Hm & Hn).
  cbn [fold_left length]. rewrite IH; [| exact Ha' | now rewrite Hm | exact Hrest].
  rewrite Hn. symmetry. apply Nat.iter_succ_r.
Qed.

Lemma iter_fixed (f : Z -> Z) (x : Z) (k : nat) :
  f x = x -> Nat.iter k f x = x.
Proof.
  intros Hf. induction k as [| k IH]; simpl; [reflexivity |].
  now rewrite IH.
Qed.

Lemma iter_monotone_down (f : Z -> Z) (lo hi : Z) :
  (forall n, lo <= n <= hi -> lo <= f n <= n) ->
  forall k n, lo <= n <= hi -> lo <= Nat.iter k f n <= n.
Proof.
  intros Hf k. induction k as [| k IH]; intros n Hn; simpl; [lia |].
  specialize (IH n Hn). specialize (Hf (Nat.iter k f n)). lia.
Qed.

Lemma iter_monotone_up (f : Z -> Z) (lo hi : Z) :
  (forall n, lo <= n <= hi -> n <= f n <= hi) ->
  forall k n, lo <= n <= hi -> n <= Nat.iter k f n <= hi.
Proof.
  intros Hf k. induction k as [| k IH]; intros n Hn; simpl; [lia |].
  specialize (IH n Hn). specialize (Hf (Nat.iter k f n)). lia.
Qed.

(** Checking a property of every node count between the bounds. *)
Lemma every_node_count (P : Z -> bool) :
  forallb (fun k => P (MIN_NODES + Z.of_nat k)) (seq 0 91) = true ->
  forall n, MIN_NODES <= n <= MAX_NODES -> P n = true.
Proof.
  intros H n Hn. rewrite forallb_forall in H.
  specialize (H (Z.to_nat (n - MIN_NODES))).
  replace (MIN_NODES + Z.of_nat (Z.to_nat (n - MIN_NODES))) with n in H
    by (unfold MIN_NODES in *; lia).
  apply H. apply in_seq. unfold MIN_NODES, MAX_NODES in *. lia.
Qed.

Lemma twelve_reductions (n : Z) :
  MIN_NODES <= n <= MAX_NODES -> Nat.iter 12 scaledDown n = MIN_NODES.
Proof.
  intros Hn. apply Z.eqb_eq.
  apply (every_node_count (fun n => Nat.iter 12 scaledDown n =? MIN_NODES));
    [vm_compute; reflexivity | exact Hn].
Qed.

Lemma eighteen_expansions (n : Z) :
  MIN_NODES <= n <= MAX_NODES -> Nat.iter 18 scaledUp n = MAX_NODES.
Proof.
  intros Hn. apply Z.eqb_eq.
  apply (every_node_count (fun n => Nat.iter 18 scaledUp n =? MAX_NODES));
    [vm_compute; reflexivity | exact Hn].
Qed.

(** X2: with auto-scaling on and a cpu reading that stays above 85,
    consecutive firings of the scaling interval never raise the node count
    and never take it below [MIN_NODES]; from any count within the bounds,
    twelve firings bring it to [MIN_NODES], where it stays. *)
Theorem sustained_overload_reaches_floor (st : AppState) (ticks : list Event) :
  autoScale st = true ->
  (85 < cpuLoad (metricsRef st))%Q ->
  MIN_NODES <= nodeCount (configRef st) <= MAX_NODES ->
  Forall isScaleTick ticks ->
  MIN_NODES <= nodeCount (configRef (run st ticks)) <= nodeCount (configRef st)
  /\ ((12 <= length ticks)%nat ->
      nodeCount (configRef (run st ticks)) = MIN_NODES).
Proof.
  intros Ha Hc Hn Hall.
  rewrite (run_ScaleTicks scaledDown (fun c => (85 < c)%Q)
             step_ScaleTick_high ticks st Ha Hc Hall).
  split.
  - apply (iter_monotone_down scaledDown MIN_NODES MAX_NODES); [| exact Hn].
    intros n H. pose proof (scaledDown_range n H). lia.
  - intros Hlen.
    replace (length ticks) with ((length ticks - 12) + 12)%nat by lia.
    rewrite Nat.iter_add, (twelve_reductions _ Hn).
    apply iter_fixed. reflexivity.
Qed.

Lemma sustained_overload_reaches_floor_witness :
  nodeCount (configRef (run loadedState (repeat (ScaleTick noon someId) 12)))
  = MIN_NODES.
Proof.
  apply (sustained_overload_reaches_floor loadedState
           (repeat (ScaleTick noon someId) 12)).
  - reflexivity.
  - reflexivity.
  - vm_compute. split; discriminate.
  - repeat constructor.
  - simpl. lia.
Defined.

(** X3: with auto-scaling on and a cpu reading that stays below 40,
    consecutive firings never lower the node count and never take it above
    [MAX_NODES]; from any count within the bounds, eighteen firings bring
    it to [MAX_NODES], where it stays. *)
Theorem sustained_headroom_reaches_ceiling (st : AppState)
    (ticks : list Event) :
  autoScale st = true ->
  (cpuLoad (metricsRef st) < 40)%Q ->
  MIN_NODES <= nodeCount (configRef st) <= MAX_NODES ->
  Forall isScaleTick ticks ->
  nodeCount (configRef st) <= nodeCount (configRef (run st ticks)) <= MAX_NODES
  /\ ((18 <= length ticks)%nat ->
      nodeCount (configRef (run st ticks)) = MAX_NODES).
Proof.
  intros Ha Hc Hn Hall.
  rewrite (run_ScaleTicks scaledUp (fun c => (c < 40)%Q)
             step_ScaleTick_low ticks st Ha Hc Hall).
  split.
  - apply (iter_monotone_up scaledUp MIN_NODES MAX_NODES); [| exact Hn].
    intros n H. pose proof (scaledUp_range n H). lia.
  - intros Hlen.
    replace (length ticks) with ((length ticks - 18) + 18)%nat by lia.
    rewrite Nat.iter_add, (eighteen_expansions _ Hn).
    apply iter_fixed. reflexivity.
Qed.

Lemma sustained_headroom_reaches_ceiling_witness :
  nodeCount (configRef (run initialState (repeat (ScaleTick noon someId) 18)))
  = MAX_NODES.
Proof.
  apply (sustained_headroom_reaches_ceiling initialState
           (repeat (ScaleTick noon someId) 18)).
  - reflexivity.
  - reflexivity.
  - vm_compute. split; discriminate.
  - repeat constructor.
  - simpl. lia.
Defined.

Lemma run_invariant_in (P : AppState -> Prop) (ok : Event -> Prop) :
  (forall st ev, ok ev -> P st -> P (step st ev)) ->
  forall evs st, Forall ok evs -> P st -> P (run st evs).
Proof.
  intros Hstep evs. unfold run.
  induction evs as [| ev evs IH]; intros st Hall Hst; simpl.
  - exact Hst.
  - inversion Hall as [| ? ? Hev Hrest]; subst.
    apply IH; [exact Hrest | apply Hstep; assumption].
Qed.

Lemma inject_Z_le (a b : Z) : a <= b -> (inject_Z a <= inject_Z b)%Q.
Proof. intros H. now rewrite <- Zle_Qle. Qed.

Lemma clamp_upper (lo hi x b : Q) :
  (lo <= b -> x <= b -> Math_min hi (Math_max lo x) <= b)%Q.
Proof.
  intros Hlo Hx.
  destruct (Math_max_cases lo x) as [[H1 E1] | [H1 E1]]; rewrite E1.
  - destruct (Math_min_cases hi x) as [[H2 E2] | [H2 E2]]; rewrite E2; lra.
  - destruct (Math_min_cases hi lo) as [[H2 E2] | [H2 E2]]; rewrite E2; lra.
Qed.

Lemma clamp_lower (lo hi x b : Q) :
  (b <= hi -> b <= x -> b <= Math_min hi (Math_max lo x))%Q.
Proof.
  intros Hhi Hx.
  destruct (Math_max_cases lo x) as [[H1 E1] | [H1 E1]]; rewrite E1.
  - destruct (Math_min_cases hi x) as [[H2 E2] | [H2 E2]]; rewrite E2; lra.
  - destruct (Math_min_cases hi lo) as [[H2 E2] | [H2 E2]]; rewrite E2; lra.
Qed.

Lemma scaleTick_configRef (now : Date) (rnd : string) (st : AppState) :
  let c := cpuLoad (metricsRef st) in
  let n := nodeCount (configRef st) in
  nodeCount (configRef (scaleTick now rnd st))
  = if num_gt c 85 then scaledDown n
    else if num_lt c 40 then scaledUp n else n.
Proof.
  intros c n. unfold scaleTick, scaleDecision. fold c n.
  fold (scaledDown n). fold (scaledUp n).
  destruct (num_gt c 85).
  - cbv zeta. destruct (Z.eqb_spec (scaledDown n) n) as [E | E]; simpl; auto.
  - destruct (num_lt c 40); [| reflexivity].
    cbv zeta. destruct (Z.eqb_spec (scaledUp n) n) as [E | E]; simpl; auto.
Qed.

(** X4: with at most 100 nodes, an injected load of at most 20 and cpu
    noise of at most 5, the metrics tick reads a cpu load of at most 85,
    so the scaling firing that follows it never lowers the node count. *)
Theorem light_load_never_scales_down (rCpu rMem rLat : Q) (dateNow : Z)
    (now : Date) (rnd : string) (st : AppState) :
  configRef st = networkConfig st ->
  MIN_NODES <= nodeCount (networkConfig st) <= MAX_NODES ->
  (artificialLoad st <= 20)%Q ->
  ((rCpu - 0.5) * 10 <= 5)%Q ->
  (cpuLoad (metricsRef (metricsTick rCpu rMem rLat dateNow st)) <= 85)%Q
  /\ nodeCount (configRef st)
     <= nodeCount
          (configRef (scaleTick now rnd (metricsTick rCpu rMem rLat dateNow st))).
Proof.
  intros Href Hn Hload Hnoise.
  assert (Hcpu : (cpuLoad (metricsRef (metricsTick rCpu rMem rLat dateNow st))
                  <= 85)%Q).
  { simpl. apply clamp_upper; [lra |].
    pose proof (inject_Z_le _ _ (proj2 Hn)) as Hq.
    change (inject_Z MAX_NODES) with 100%Q in Hq.
    assert (Hhalf : (inject_Z (nodeCount (networkConfig st)) / 2 <= 50)%Q).
    { apply Qle_shift_div_r; [reflexivity | lra]. }
    lra. }
  split; [exact Hcpu |].
  rewrite scaleTick_configRef. cbv zeta.
  change (configRef (metricsTick rCpu rMem rLat dateNow st)) with (configRef st).
  rewrite (proj2 (num_gt_false _ 85) Hcpu).
  rewrite Href.
  destruct (num_lt _ 40); [| lia].
  pose proof (scaledUp_range _ Hn). lia.
Qed.

Lemma light_load_never_scales_down_witness :
  (cpuLoad (metricsRef (metricsTick 1 0.5 0.5 0 (stateWith 97 highFull)))
   <= 85)%Q
  /\ nodeCount (configRef (stateWith 97 highFull))
     <= nodeCount
          (configRef
             (scaleTick noon someId
                (metricsTick 1 0.5 0.5 0 (stateWith 97 highFull)))).
Proof.
  apply (light_load_never_scales_down 1 0.5 0.5 0 noon someId
           (stateWith 97 highFull)).
  - reflexivity.
  - vm_compute. split; discriminate.
  - vm_compute. discriminate.
  - vm_compute. discriminate.
Defined.

(** X5: with at least 70 nodes, a non-negative injected load and cpu noise
    of at least -5, the metrics tick reads a cpu load of at least 40, so
    the scaling firing that follows it never raises the node count. *)
Theorem large_cluster_never_scales_up (rCpu rMem rLat : Q) (dateNow : Z)
    (now : Date) (rnd : string) (st : AppState) :
  configRef st = networkConfig st ->
  70 <= nodeCount (networkConfig st) <= MAX_NODES ->
  (0 <= artificialLoad st)%Q ->
  (-5 <= (rCpu - 0.5) * 10)%Q ->
  (40 <= cpuLoad (metricsRef (metricsTick rCpu rMem rLat dateNow st)))%Q
  /\ nodeCount
       (configRef (scaleTick now rnd (metricsTick rCpu rMem rLat dateNow st)))
     <= nodeCount (configRef st).
Proof.
  intros Href Hn Hload Hnoise.
  assert (Hcpu : (40 <= cpuLoad
                          (metricsRef (metricsTick rCpu rMem rLat dateNow st)))%Q).
  { simpl. apply clamp_lower; [lra |].
    pose proof (inject_Z_le _ _ (proj1 Hn)) as Hq.
    change (inject_Z 70) with 70%Q in Hq.
    assert (Hhalf : (35 <= inject_Z (nodeCount (networkConfig st)) / 2)%Q).
    { apply Qle_shift_div_l; [reflexivity | lra]. }
    lra. }
  split; [exact Hcpu |].
  rewrite scaleTick_configRef. cbv zeta.
  change (configRef (metricsTick rCpu rMem rLat dateNow st)) with (configRef st).
  rewrite (proj2 (num_lt_false _ 40) Hcpu).
  rewrite Href.
  assert (Hn' : MIN_NODES <= nodeCount (networkConfig st) <= MAX_NODES)
    by (unfold MIN_NODES; lia).
  destruct (num_gt _ 85); [| lia].
  pose proof (scaledDown_range _ Hn'). lia.
Qed.

Lemma large_cluster_never_scales_up_witness :
  (40 <= cpuLoad (metricsRef (metricsTick 0 0.5 0.5 0 (stateWith 12 highFull))))%Q
  /\ nodeCount
       (configRef
          (scaleTick noon someId (metricsTick 0 0.5 0.5 0 (stateWith 12 highFull))))
     <= nodeCount (configRef (stateWith 12 highFull)).
Proof.
  apply (large_cluster_never_scales_up 0 0.5 0.5 0 noon someId
           (stateWith 12 highFull)).
  - reflexivity.
  - vm_compute. split; discriminate.
  - vm_compute. discriminate.
  - vm_compute. discriminate.
Defined.

(** X6: while auto-scaling is switched off, no event other than the toggle
    changes the configuration: state and ref stay as they were, and the
    switch stays off. *)
Theorem autoscale_off_freezes_config (st : AppState) (evs : list Event) :
  autoScale st = false ->
  Forall (fun ev => ev <> ToggleAutoScale) evs ->
  networkConfig (run st evs) = networkConfig st
  /\ configRef (run st evs) = configRef st
  /\ autoScale (run st evs) = false.
Proof.
  intros Hoff Hall.
  apply (run_invariant_in
           (fun s => networkConfig s = networkConfig st
                     /\ configRef s = configRef st
                     /\ autoScale s = false)
           (fun ev => ev <> ToggleAutoScale)); auto.
  intros s ev Hev (Hn & Hr & Ha).
  destruct ev; simpl; auto.
  - rewrite Ha. auto.
  - destruct thought; simpl; auto.
  - contradiction.
Qed.

Lemma autoscale_off_freezes_config_witness :
  networkConfig
    (run (setAutoScale false loadedState)
       [ScaleTick noon someId; MetricsTick 0.5 0.5 0.5 0; ScaleTick noon someId])
  = networkConfig (setAutoScale false loadedState)
  /\ configRef
       (run (setAutoScale false loadedState)
          [ScaleTick noon someId; MetricsTick 0.5 0.5 0.5 0;
           ScaleTick noon someId])
     = configRef (setAutoScale false loadedState)
  /\ autoScale
       (run (setAutoScale false loadedState)
          [ScaleTick noon someId; MetricsTick 0.5 0.5 0.5 0;
           ScaleTick noon someId])
     = false.
Proof.
  apply (autoscale_off_freezes_config (setAutoScale false loadedState)
           [ScaleTick noon someId; MetricsTick 0.5 0.5 0.5 0;
            ScaleTick noon someId]).
  - reflexivity.
  - repeat constructor; discriminate.
Defined.

(** ** The injected load *)

(** X7: as long as the slider reports values within its range, the
    injected load stays within [[0, 80]] after any sequence of events,
    stress pulses and their timeouts included in any order and number. *)
Theorem load_stays_in_range (evs : list Event) :
  Forall inRange evs ->
  (0 <= artificialLoad (run initialState evs) <= 80)%Q.
Proof.
  intros Hall.
  apply (run_invariant_in (fun st => (0 <= artificialLoad st <= 80)%Q) inRange);
    [| exact Hall | simpl; split; discriminate].
  intros st ev Hev H.
  destruct ev; simpl; try exact H.
  - destruct (autoScale st); [| exact H].
    unfold scaleTick. destruct (scaleDecision _ _) as [[next reason] |]; exact H.
  - destruct thought; exact H.
  - destruct (Math_min_cases (artificialLoad st + 40) 80) as [[H1 E] | [H1 E]];
      rewrite E; lra.
  - destruct (Math_max_cases 0 (artificialLoad st - 40)) as [[H1 E] | [H1 E]];
      rewrite E; lra.
  - simpl in Hev.
    pose proof (inject_Z_le _ _ (proj1 Hev)) as H0.
    pose proof (inject_Z_le _ _ (proj2 Hev)) as H1.
    split; assumption.
Qed.

Lemma load_stays_in_range_witness :
  (0 <= artificialLoad
          (run initialState
             [LoadSlider 65; StressTest noon someId; StressTest noon someId;
              StressTimeout noon someId])
   <= 80)%Q.
Proof.
  apply (load_stays_in_range
           [LoadSlider 65; StressTest noon someId; StressTest noon someId;
            StressTimeout noon someId]).
  repeat constructor; vm_compute; discriminate.
Defined.

(** X8: a stress pulse followed by its timeout leaves the injected load at
    [min(load, 40)]: a load of at most 40 is restored, a larger one comes
    back as 40; in between the load is within [[40, 80]]; and the pair
    pushes a WARNING entry and then an INFO entry on the log. *)
Theorem stress_pulse_net_effect (now1 now2 : Date) (rnd1 rnd2 : string)
    (st : AppState) :
  (0 <= artificialLoad st <= 80)%Q ->
  (40 <= artificialLoad (handleStressTest now1 rnd1 st) <= 80)%Q
  /\ (artificialLoad (stressTimeout now2 rnd2 (handleStressTest now1 rnd1 st))
      == Math_min (artificialLoad st) 40)%Q
  /\ logs (stressTimeout now2 rnd2 (handleStressTest now1 rnd1 st))
     = pushLog
         {| id := rnd2; timestamp := timeString now2; type := INFO;
            message := "Stress test complete. Releasing load." |}
         (pushLog
            {| id := rnd1; timestamp := timeString now1; type := WARNING;
               message := "Injecting artificial stress test load..." |}
            (logs st)).
Proof.
  intros H. simpl.
  split; [| split; [| reflexivity]].
  - destruct (Math_min_cases (artificialLoad st + 40) 80) as [[H1 E] | [H1 E]];
      rewrite E; lra.
  - destruct (Math_min_cases (artificialLoad st + 40) 80) as [[H1 E] | [H1 E]];
      rewrite E.
    + destruct (Math_max_cases 0 (artificialLoad st + 40 - 40))
        as [[H2 E2] | [H2 E2]]; rewrite E2;
        destruct (Math_min_cases (artificialLoad st) 40) as [[H3 E3] | [H3 E3]];
        rewrite E3; lra.
    + destruct (Math_max_cases 0 (80 - 40)) as [[H2 E2] | [H2 E2]]; rewrite E2;
        destruct (Math_min_cases (artificialLoad st) 40) as [[H3 E3] | [H3 E3]];
        rewrite E3; lra.
Qed.

Lemma stress_pulse_net_effect_witness :
  (artificialLoad
     (stressTimeout noon someId
        (handleStressTest noon someId
           (setArtificialLoad (fun _ => 65%Q) initialState)))
   == 40)%Q.
Proof.
  destruct (stress_pulse_net_effect noon noon someId someId
              (setArtificialLoad (fun _ => 65%Q) initialState))
    as (_ & Hnet & _).
  - vm_compute. split; discriminate.
  - rewrite Hnet. reflexivity.
Defined.

(** ** The readings along a run *)

Lemma step_metricsRef (st : AppState) (ev : Event) :
  metricsRef st = metrics st -> metricsRef (step st ev) = metrics (step st ev).
Proof.
  intros H. destruct ev; simpl; auto.
  - destruct (autoScale st); [| exact H].
    unfold scaleTick. destruct (scaleDecision _ _) as [[next reason] |]; exact H.
  - destruct thought; exact H.
Qed.

(** X9: from start-up, whatever the events, as long as the random draws
    lie in [[0, 1)], the metrics ref shows the metrics state, and the
    readings stay within cpu [[5, 100]], memory [[10, 100]], temperature
    [[40, 80]] and latency [[40, 110]]. *)
Theorem readings_stay_in_range (evs : list Event) :
  Forall inRange evs ->
  metricsRef (run initialState evs) = metrics (run initialState evs)
  /\ (5 <= cpuLoad (metrics (run initialState evs)) <= 100)%Q
  /\ (10 <= memoryUsage (metrics (run initialState evs)) <= 100)%Q
  /\ (40 <= temperature (metrics (run initialState evs)) <= 80)%Q
  /\ (40 <= networkLatency (metrics (run initialState evs)) <= 110)%Q.
Proof.
  intros Hall.
  apply (run_invariant_in
           (fun st => metricsRef st = metrics st
                      /\ (5 <= cpuLoad (metrics st) <= 100)%Q
                      /\ (10 <= memoryUsage (metrics st) <= 100)%Q
                      /\ (40 <= temperature (metrics st) <= 80)%Q
                      /\ (40 <= networkLatency (metrics st) <= 110)%Q)
           inRange);
    [| exact Hall | simpl; repeat split; discriminate].
  intros st ev Hev (Href & Hrest).
  split; [now apply step_metricsRef |].
  destruct ev; simpl; try exact Hrest.
  - destruct Hev as (_ & _ & Hlat).
    set (newCpu :=
           Math_min 100
             (Math_max 5
                (10 + inject_Z (nodeCount (networkConfig st)) / 2
                 + artificialLoad st + (rCpu - 0.5) * 10)%Q)).
    assert (Hc : (5 <= newCpu <= 100)%Q) by (apply clamp_range; lra).
    split; [exact Hc |].
    split; [apply clamp_range; lra |].
    split; split; lra.
  - destruct (autoScale st); [| exact Hrest].
    unfold scaleTick.
    destruct (scaleDecision _ _) as [[next reason] |]; exact Hrest.
  - destruct thought; exact Hrest.
Qed.

Lemma readings_stay_in_range_witness :
  (40 <= temperature
           (metrics (run initialState
                       [LoadSlider 80; MetricsTick 0.99 0 0.99 1700000000000]))
   <= 80)%Q.
Proof.
  apply (readings_stay_in_range
           [LoadSlider 80; MetricsTick 0.99 0 0.99 1700000000000]).
  repeat constructor; vm_compute; discriminate.
Defined.

(** A charted sample within the fixed domain of the two charts. *)
Lemma Forall_pushHistory (P : HistorySample -> Prop) (s : HistorySample)
    (h : list HistorySample) :
  Forall P h -> P s -> Forall P (pushHistory s h).
Proof.
  intros Hh Hs. rewrite pushHistory_skipn. unfold pushKeeping.
  apply Forall_app. split; [| now constructor].
  rewrite <- (firstn_skipn (length h - 29) h) in Hh.
  now apply Forall_app in Hh.
Qed.

Lemma last_pushHistory (s d : HistorySample) (h : list HistorySample) :
  last (pushHistory s h) d = s.
Proof. unfold pushHistory. apply last_last. Qed.

(** X10: the chart history follows the metrics: in every state reached
    from start-up the history is empty exactly as long as no metrics tick
    has run (the metrics are then the initial ones), and otherwise its
    newest sample carries the current cpu load and memory usage; and every
    sample it holds has cpu within [[5, 100]] and memory within
    [[10, 100]]. *)
Theorem history_follows_metrics (evs : list Event) (d : HistorySample) :
  (history (run initialState evs) = []
   /\ metrics (run initialState evs) = initialMetrics
   \/ history (run initialState evs) <> []
      /\ cpu (last (history (run initialState evs)) d)
         = cpuLoad (metrics (run initialState evs))
      /\ mem (last (history (run initialState evs)) d)
         = memoryUsage (metrics (run initialState evs)))
  /\ Forall (fun s => (5 <= cpu s <= 100)%Q /\ (10 <= mem s <= 100)%Q)
       (history (run initialState evs)).
Proof.
  apply (run_invariant
           (fun st =>
              (history st = [] /\ metrics st = initialMetrics
               \/ history st <> []
                  /\ cpu (last (history st) d) = cpuLoad (metrics st)
                  /\ mem (last (history st) d) = memoryUsage (metrics st))
              /\ Forall (fun s => (5 <= cpu s <= 100)%Q
                                  /\ (10 <= mem s <= 100)%Q)
                   (history st)));
    [| split; [left; split; reflexivity | constructor]].
  intros st ev [Hlast Hall].
  destruct ev; simpl; try (split; assumption).
  - split.
    + right. rewrite last_pushHistory. simpl.
      split; [| split; reflexivity].
      unfold pushHistory. intros E. now apply app_eq_nil in E.
    + apply Forall_pushHistory; [exact Hall |]. simpl.
      split; apply clamp_range; lra.
  - destruct (autoScale st); [| split; assumption].
    unfold scaleTick.
    destruct (scaleDecision _ _) as [[next reason] |]; split; assumption.
  - destruct thought; split; assumption.
Qed.

(** ** The timestamp of a log entry *)

Lemma padStart2_spells (n : Z) :
  0 <= n <= 99 -> spellsTwoDigits n (padStart2 n) = true.
Proof.
  intros Hn.
  assert (H : forallb (fun k => spellsTwoDigits (Z.of_nat k)
                                  (padStart2 (Z.of_nat k)))
                (seq 0 100) = true) by (vm_compute; reflexivity).
  rewrite forallb_forall in H.
  specialize (H (Z.to_nat n)). rewrite Z2Nat.id in H by lia.
  apply H. apply in_seq. lia.
Qed.

Lemma spellsTwoDigits_inv (n : Z) (s : string) :
  spellsTwoDigits n s = true ->
  exists a b,
    s = String a (String b EmptyString)
    /\ isDigit a = true /\ isDigit b = true
    /\ 10 * digitValue a + digitValue b = n.
Proof.
  destruct s as [| a [| b [| c s]]]; simpl; try discriminate.
  intros H. apply andb_prop in H. destruct H as [H Hv].
  apply andb_prop in H. destruct H as [Ha Hb].
  exists a, b. repeat split; auto. now apply Z.eqb_eq.
Qed.

(** X11: for a time of day (hours up to 23, minutes and seconds up to 59)
    the timestamp of a log entry is exactly eight characters, two decimal
    digits for each field with a leading zero where needed, separated by
    colons, and the digits spell the three fields. *)
Theorem timeString_format (now : Date) :
  0 <= getHours now <= 23 ->
  0 <= getMinutes now <= 59 ->
  0 <= getSeconds now <= 59 ->
  exists h1 h2 m1 m2 s1 s2 : ascii,
    timeString now
    = String h1 (String h2 (String ":" (String m1 (String m2
        (String ":" (String s1 (String s2 EmptyString)))))))
    /\ forallb isDigit [h1; h2; m1; m2; s1; s2] = true
    /\ 10 * digitValue h1 + digitValue h2 = getHours now
    /\ 10 * digitValue m1 + digitValue m2 = getMinutes now
    /\ 10 * digitValue s1 + digitValue s2 = getSeconds now.
Proof.
  intros Hh Hm Hs. unfold timeString.
  destruct (spellsTwoDigits_inv _ _ (padStart2_spells (getHours now) ltac:(lia)))
    as (h1 & h2 & -> & Dh1 & Dh2 & Vh).
  destruct (spellsTwoDigits_inv _ _ (padStart2_spells (getMinutes now) ltac:(lia)))
    as (m1 & m2 & -> & Dm1 & Dm2 & Vm).
  destruct (spellsTwoDigits_inv _ _ (padStart2_spells (getSeconds now) ltac:(lia)))
    as (s1 & s2 & -> & Ds1 & Ds2 & Vs).
  exists h1, h2, m1, m2, s1, s2. simpl.
  rewrite Dh1, Dh2, Dm1, Dm2, Ds1, Ds2. auto.
Qed.

Lemma timeString_format_witness :
  exists h1 h2 m1 m2 s1 s2 : ascii,
    timeString {| getHours := 9; getMinutes := 5; getSeconds := 0 |}
    = String h1 (String h2 (String ":" (String m1 (String m2
        (String ":" (String s1 (String s2 EmptyString)))))))
    /\ forallb isDigit [h1; h2; m1; m2; s1; s2] = true
    /\ 10 * digitValue h1 + digitValue h2 = 9
    /\ 10 * digitValue m1 + digitValue m2 = 5
    /\ 10 * digitValue s1 + digitValue s2 = 0.
Proof.
  apply (timeString_format {| getHours := 9; getMinutes := 5; getSeconds := 0 |});
    simpl; lia.
Defined.

(** ** What the narrator hands back *)

Lemma truthy_nonempty (s : string) : truthy s = true -> s <> EmptyString.
Proof. destruct s; [discriminate | discriminate]. Qed.

Lemma textOrNominal_trimmed (response : GenerateContentResponse) :
  textOrNominal response <> EmptyString
  /\ trim (textOrNominal response) = textOrNominal response.
Proof.
  unfold textOrNominal. destruct (text response) as [t |].
  - destruct (truthy (trim t)) eqn:E.
    + split; [now apply truthy_nonempty | apply trim_idempotent].
    + split; [discriminate | reflexivity].
  - split; [discriminate | reflexivity].
Qed.

(** X12: whatever the remote model does, the thought that [analyzeSystem]
    resolves to is a non-empty string without white space at either end;
    and when the model answers with a text that is not blank, the thought
    is that text trimmed. *)
Theorem thought_is_trimmed_text :
  (forall (g : Gemini) (m : SystemMetrics) (config : NetworkConfig)
          (previousLogs : list string),
     exists thought,
       analyzeSystem g m config previousLogs = Returned thought
       /\ thought <> EmptyString
       /\ trim thought = thought)
  /\ (forall (g : Gemini) (m : SystemMetrics) (config : NetworkConfig)
             (previousLogs : list string) (ai : unit) (t : string),
        getAI g = Returned ai ->
        generateContent g m config (slice (-3) previousLogs)
          = Returned {| text := Some t |} ->
        ~ Blank (list_ascii_of_string t) ->
        analyzeSystem g m config previousLogs = Returned (trim t)).
Proof.
  split.
  - intros g m config previousLogs. unfold analyzeSystem.
    destruct (getAI g) as [ai | e]; simpl.
    + destruct (generateContent g m config (slice (-3) previousLogs))
        as [response | e]; simpl.
      * exists (textOrNominal response).
        split; [reflexivity | apply textOrNominal_trimmed].
      * exists FALLBACK. repeat split. discriminate.
    + exists FALLBACK. repeat split. discriminate.
  - intros g m config previousLogs ai t Hai Hgen Hblank.
    rewrite (analyzeSystem_answer g m config previousLogs ai _ Hai Hgen).
    unfold textOrNominal. simpl.
    destruct (truthy (trim t)) eqn:E; [reflexivity |].
    exfalso. apply Hblank. now apply trim_truthy.
Qed.

Lemma thought_is_trimmed_text_witness :
  analyzeSystem (answering (Some paddedThought)) initialMetrics
    initialConfig []
  = Returned "Pruning idle synapses."%string.
Proof.
  apply (proj2 thought_is_trimmed_text
           (answering (Some paddedThought)) initialMetrics
           initialConfig [] tt paddedThought).
  - reflexivity.
  - reflexivity.
  - intros H. apply isBlank_Blank in H. discriminate H.
Defined.

(** ** The context of a narration request *)

Lemma slice_neg_short {A : Type} (k : nat) (l : list A) :
  (0 < k)%nat -> (length l <= k)%nat -> slice (- Z.of_nat k) l = l.
Proof.
  intros Hk Hl. rewrite slice_neg_skipn by exact Hk.
  now replace (length l - k)%nat with 0%nat by lia.
Qed.

Lemma slice_neg_length {A : Type} (k : nat) (l : list A) :
  (0 < k)%nat -> length (slice (- Z.of_nat k) l) = Nat.min k (length l).
Proof.
  intros Hk. rewrite slice_neg_skipn by exact Hk.
  rewrite length_skipn. lia.
Qed.

Lemma slice_neg_map {A B : Type} (f : A -> B) (k : nat) (l : list A) :
  (0 < k)%nat ->
  slice (- Z.of_nat k) (map f l) = map f (slice (- Z.of_nat k) l).
Proof.
  intros Hk. rewrite !slice_neg_skipn by exact Hk.
  rewrite length_map. apply skipn_map.
Qed.

(** X13: the narration interval calls the narrator only when its draw
    exceeds 0.7; the call it then makes is the one it would make with the
    messages of the whole log, since the narrator keeps the last three
    itself; and the narrator is handed at most three messages. *)
Theorem narration_context (gate : Q) (g : Gemini) (st : AppState) :
  ((gate <= 0.7)%Q -> aiCall gate g st = None)
  /\ ((0.7 < gate)%Q ->
      aiCall gate g st
      = Some (analyzeSystem g (metricsRef st) (configRef st)
                (map message (logs st))))
  /\ (length (map message (slice (-3) (logs st))) <= 3)%nat.
Proof.
  unfold aiCall. split; [| split].
  - intros H. now rewrite (proj2 (num_gt_false gate 0.7) H).
  - intros H. rewrite (proj2 (num_gt_true gate 0.7) H).
    f_equal. unfold analyzeSystem.
    assert (E : slice (-3) (map message (slice (-3) (logs st)))
                = slice (-3) (map message (logs st))).
    { change (-3) with (- Z.of_nat 3).
      rewrite (slice_neg_map message 3 (logs st)) by lia.
      apply slice_neg_short; [lia |].
      rewrite length_map, slice_neg_length by lia. lia. }
    destruct (getAI g); simpl; [now rewrite E | reflexivity].
  - change (-3) with (- Z.of_nat 3).
    rewrite length_map, slice_neg_length by lia. lia.
Qed.

(** ** The optimisation plan *)

(** X14: [generateOptimizationPlan] always resolves to a non-empty string:
    the answer of the model as it is (not trimmed) when that answer is not
    empty, "Optimization plan generation failed." when it is empty or
    missing, and "Unable to generate plan via neural link." when the client
    or the call throws. *)
Theorem plan_always_resolves (g : PlanService) (m : SystemMetrics) :
  (exists plan,
     generateOptimizationPlan g m = Returned plan /\ plan <> EmptyString)
  /\ (forall ai t,
        planGetAI g = Returned ai ->
        planGenerateContent g m = Returned {| text := Some t |} ->
        generateOptimizationPlan g m
        = Returned (if truthy t then t
                    else "Optimization plan generation failed."%string))
  /\ (forall ai,
        planGetAI g = Returned ai ->
        planGenerateContent g m = Returned {| text := None |} ->
        generateOptimizationPlan g m
        = Returned "Optimization plan generation failed."%string)
  /\ ((exists e, planGetAI g = Thrown e)
      \/ (exists e, planGenerateContent g m = Thrown e) ->
      generateOptimizationPlan g m
      = Returned "Unable to generate plan via neural link."%string).
Proof.
  unfold generateOptimizationPlan. repeat apply conj.
  - destruct (planGetAI g) as [ai | e]; simpl.
    + destruct (planGenerateContent g m) as [[[t |]] | e]; simpl.
      * unfold textOrFailed. simpl. destruct (truthy t) eqn:E.
        -- exists t. split; [reflexivity | now apply truthy_nonempty].
        -- exists PLAN_FAILED. split; [reflexivity | discriminate].
      * exists PLAN_FAILED. split; [reflexivity | discriminate].
      * exists PLAN_UNAVAILABLE. split; [reflexivity | discriminate].
    + exists PLAN_UNAVAILABLE. split; [reflexivity | discriminate].
  - intros ai t -> ->. reflexivity.
  - intros ai -> ->. reflexivity.
  - intros [[e He] | [e He]].
    + now rewrite He.
    + rewrite He. now destruct (planGetAI g).
Qed.

Lemma plan_always_resolves_witness :
  generateOptimizationPlan (planAnswering (Some blankText)) initialMetrics
  = Returned blankText.
Proof.
  apply (proj1 (proj2 (plan_always_resolves (planAnswering (Some blankText))
                         initialMetrics)) tt blankText);
    reflexivity.
Defined.

(** ** What the dashboard shows *)

Lemma reachable_produced (evs : list Event) :
  producedConfig (networkConfig (run initialState evs)).
Proof.
  apply (run_invariant (fun st => producedConfig (networkConfig st))).
  - intros st ev Hp.
    destruct (step_config st ev) as [[E1 _] | (next & reason & Hd & E1 & _)];
      rewrite E1; [exact Hp | exact (scaleDecision_produced _ _ _ _ Hd)].
  - unfold producedConfig. simpl. auto.
Qed.

(** X15: the lit segments of the complexity bar are a prefix of the four,
    one more than the rank of the complexity among LOW, MEDIUM, HIGH,
    CRITICAL; and in every state reached from start-up the fourth segment
    is dark and the STATUS tile is never shown in the red class. *)
Theorem display_never_alarming :
  (forall c : Complexity,
     let lit := Z.to_nat (indexOfFrom c levels 0 + 1) in
     (1 <= lit <= 4)%nat
     /\ complexityBar c = repeat true lit ++ repeat false (4 - lit))
  /\ (forall evs : list Event,
        nth 3 (complexityBar (complexity (networkConfig (run initialState evs))))
          true = false
        /\ (statusClass (status (networkConfig (run initialState evs)))
            = "text-emerald-400"%string
            \/ statusClass (status (networkConfig (run initialState evs)))
               = "text-yellow-400"%string)).
Proof.
  split.
  - intros c. destruct c; cbv zeta; simpl; split; try lia; reflexivity.
  - intros evs. destruct (reachable_produced evs) as [Hs Hc].
    split.
    + destruct Hc as [-> | [-> | ->]]; reflexivity.
    + destruct Hs as [-> | ->]; [left | right]; reflexivity.
Qed.

(** ** The graph data *)

Lemma toString_injective (a b : Z) : toString a = toString b -> a = b.
Proof.
  unfold toString. intros H.
  assert (Hnil : forall z, Z.to_int z <> Decimal.Pos Decimal.Nil
                           /\ Z.to_int z <> Decimal.Neg Decimal.Nil).
  { intros [| p | p]; simpl; split; try discriminate;
      intros [= E]; exact (DecimalPos.Unsigned.to_uint_nonnil p E). }
  apply (f_equal NilZero.int_of_string) in H.
  rewrite !NilZero.isi in H by apply Hnil.
  injection H as H. now apply DecimalZ.to_int_inj.
Qed.

Lemma nodeAt_id_injective (r r' : Q) (i j : nat) :
  NetworkGraph.id (NetworkGraph.nodeAt r i)
  = NetworkGraph.id (NetworkGraph.nodeAt r' j) ->
  i = j.
Proof.
  simpl. intros [= H]. apply toString_injective in H. lia.
Qed.

Lemma makeNodes_ids (random : nat -> Q) (nodeCount : Z) :
  map NetworkGraph.id (NetworkGraph.makeNodes random nodeCount)
  = map (fun i => ("node-" ++ toString (Z.of_nat i))%string)
      (seq 0 (Z.to_nat nodeCount)).
Proof. unfold NetworkGraph.makeNodes. now rewrite map_map. Qed.

Lemma makeNodes_NoDup (random : nat -> Q) (nodeCount : Z) :
  NoDup (map NetworkGraph.id (NetworkGraph.makeNodes random nodeCount)).
Proof.
  rewrite makeNodes_ids.
  apply Finite.Injective_map_NoDup; [| apply seq_NoDup].
  intros i j H. apply (nodeAt_id_injective 0 0 i j). exact H.
Qed.

(** [Math.floor(r * n)] is an index below [n] when [r] is a draw. *)
Lemma floor_draw_index (r : Q) (n : Z) :
  (0 <= r < 1)%Q -> 0 < n ->
  0 <= Math_floor (r * inject_Z n)%Q < n.
Proof.
  intros [H0 H1] Hn. unfold Math_floor.
  assert (Hq : (0 < inject_Z n)%Q).
  { change (inject_Z 0 < inject_Z n)%Q. now rewrite <- Zlt_Qlt. }
  assert (Hlo : (0 <= r * inject_Z n)%Q)
    by (apply Qmult_le_0_compat; [exact H0 | now apply Qlt_le_weak]).
  assert (Hhi : (r * inject_Z n < inject_Z n)%Q).
  { rewrite <- (Qmult_1_l (inject_Z n)) at 2. now apply Qmult_lt_r. }
  pose proof (Qfloor_le (r * inject_Z n)) as Hfl.
  pose proof (Qlt_floor (r * inject_Z n)) as Hfu.
  split.
  - assert (H : (inject_Z 0 < inject_Z (Qfloor (r * inject_Z n) + 1))%Q)
      by (eapply Qle_lt_trans; [exact Hlo | exact Hfu]).
    rewrite <- Zlt_Qlt in H. lia.
  - rewrite Zlt_Qlt. eapply Qle_lt_trans; [exact Hfl | exact Hhi].
Qed.

Lemma group_of_draw (r : Q) :
  (0 <= r < 1)%Q -> 1 <= Math_floor (r * 3)%Q + 1 <= 3.
Proof.
  intros H. pose proof (floor_draw_index r 3 H ltac:(lia)) as Hf.
  change (inject_Z 3) with 3%Q in Hf. lia.
Qed.

(** X16: the memo builds one node per unit of [nodeCount] (none for a
    count of zero or less), with ids [node-0], [node-1], ... in order and
    all different, each placed at the origin, and, for draws in [[0, 1)],
    in group 1, 2 or 3. *)
Theorem graph_nodes (random : nat -> Q) (nodeCount : Z) :
  (forall k, (0 <= random k < 1)%Q) ->
  length (NetworkGraph.makeNodes random nodeCount) = Z.to_nat nodeCount
  /\ map NetworkGraph.id (NetworkGraph.makeNodes random nodeCount)
     = map (fun i => ("node-" ++ toString (Z.of_nat i))%string)
         (seq 0 (Z.to_nat nodeCount))
  /\ NoDup (map NetworkGraph.id (NetworkGraph.makeNodes random nodeCount))
  /\ Forall (fun node =>
               1 <= NetworkGraph.group node <= 3
               /\ NetworkGraph.x node = 0%Q /\ NetworkGraph.y node = 0%Q)
       (NetworkGraph.makeNodes random nodeCount).
Proof.
  intros Hr. split; [| split; [| split]].
  - unfold NetworkGraph.makeNodes. now rewrite length_map, length_seq.
  - apply makeNodes_ids.
  - apply makeNodes_NoDup.
  - unfold NetworkGraph.makeNodes. apply Forall_forall.
    intros node Hin. apply in_map_iff in Hin. destruct Hin as (i & <- & _).
    simpl. split; [apply group_of_draw, Hr | split; reflexivity].
Qed.

Lemma graph_nodes_witness :
  length (NetworkGraph.makeNodes eagerDraws 30) = 30%nat
  /\ NoDup (map NetworkGraph.id (NetworkGraph.makeNodes eagerDraws 30)).
Proof.
  destruct (graph_nodes eagerDraws 30) as (Hlen & _ & Hnd & _).
  - intros k. unfold eagerDraws.
    destruct (Nat.even k); split; (reflexivity || (vm_compute; discriminate)).
  - split; [exact Hlen | exact Hnd].
Defined.

Section Links.

Variable random : nat -> Q.
Hypothesis random_range : forall k, (0 <= random k < 1)%Q.
Variable nodes : list NetworkGraph.D3Node.

Lemma idAt_found (j : Z) :
  0 <= j < Z.of_nat (length nodes) ->
  exists node,
    nth_error nodes (Z.to_nat j) = Some node
    /\ NetworkGraph.idAt nodes j = Returned (NetworkGraph.id node)
    /\ In (NetworkGraph.id node) (map NetworkGraph.id nodes).
Proof.
  intros Hj.
  destruct (nth_error nodes (Z.to_nat j)) as [node |] eqn:E.
  - exists node. split; [reflexivity | split].
    + unfold NetworkGraph.idAt.
      replace (j <? 0) with false by (symmetry; apply Z.ltb_ge; lia).
      now rewrite E.
    + apply in_map. eapply nth_error_In. exact E.
  - exfalso. apply nth_error_None in E. lia.
Qed.

Lemma ids_differ (i j : nat) (a b : NetworkGraph.D3Node) :
  NoDup (map NetworkGraph.id nodes) ->
  nth_error nodes i = Some a -> nth_error nodes j = Some b -> i <> j ->
  NetworkGraph.id a <> NetworkGraph.id b.
Proof.
  intros Hnd Ha Hb Hij Heq. apply Hij.
  apply (proj1 (NoDup_nth_error _) Hnd).
  - rewrite length_map. apply nth_error_Some. congruence.
  - rewrite !nth_error_map, Ha, Hb. simpl. now f_equal.
Qed.

Lemma ring_successor (i n : Z) :
  0 <= i < n -> 2 <= n -> (i + 1) mod n <> i.
Proof.
  intros Hi Hn. destruct (Z.eq_dec (i + 1) n) as [E | E].
  - rewrite E, Z.mod_same by lia. lia.
  - rewrite Z.mod_small by lia. lia.
Qed.

(** One round of the [forEach] body: the ring link, and perhaps one more. *)
Lemma eachNode_round (done rest : list NetworkGraph.D3Node)
    (node : NetworkGraph.D3Node) (k : nat) (acc : list NetworkGraph.D3Link) :
  nodes = done ++ node :: rest ->
  let i := Z.of_nat (length done) in
  exists next pushed k',
    nth_error nodes (Z.to_nat ((i + 1) mod Z.of_nat (length nodes))) = Some next
    /\ NetworkGraph.eachNode random nodes (node :: rest) i k acc
       = NetworkGraph.eachNode random nodes rest (i + 1) k' (acc ++ pushed)
    /\ hd_error pushed
       = Some {| NetworkGraph.source := NetworkGraph.id node;
                 NetworkGraph.target := NetworkGraph.id next;
                 NetworkGraph.value := 1 |}
    /\ (1 <= length pushed <= 2)%nat
    /\ Forall (linkWithin nodes) pushed
    /\ (NoDup (map NetworkGraph.id nodes) -> (2 <= length nodes)%nat ->
        Forall notLoop pushed)
    /\ ((length nodes = 1)%nat -> length pushed = 1%nat).
Proof.
  intros Hsplit i.
  assert (Hlen : length nodes = (length done + S (length rest))%nat)
    by (rewrite Hsplit, length_app; reflexivity).
  assert (Hi : 0 <= i < Z.of_nat (length nodes)) by (unfold i; lia).
  assert (Hnode : nth_error nodes (length done) = Some node).
  { rewrite Hsplit, nth_error_app2 by lia. now rewrite Nat.sub_diag. }
  assert (Hin : In (NetworkGraph.id node) (map NetworkGraph.id nodes)).
  { apply in_map. eapply nth_error_In. exact Hnode. }
  destruct (idAt_found ((i + 1) mod Z.of_nat (length nodes)))
    as (next & Hnext & Hid & Hinn); [apply Z.mod_pos_bound; lia |].
  set (ring := {| NetworkGraph.source := NetworkGraph.id node;
                  NetworkGraph.target := NetworkGraph.id next;
                  NetworkGraph.value := 1 |}).
  assert (Hring : linkWithin nodes ring) by (repeat split; assumption).
  assert (Hringloop : NoDup (map NetworkGraph.id nodes) ->
                      (2 <= length nodes)%nat -> notLoop ring).
  { intros Hnd H2. unfold notLoop. simpl.
    apply (ids_differ _ _ _ _ Hnd Hnode Hnext).
    pose proof (ring_successor i (Z.of_nat (length nodes)) Hi ltac:(lia)).
    pose proof (Z.mod_pos_bound (i + 1) (Z.of_nat (length nodes)) ltac:(lia)).
    unfold i in *. lia. }
  exists next.
  cbn [NetworkGraph.eachNode]. rewrite Hid. cbn [bind]. fold ring.
  destruct (num_gt (random k) 0.7).
  - pose proof (floor_draw_index (random (S k)) (Z.of_nat (length nodes))
                  (random_range (S k)) ltac:(lia)) as Hidx.
    destruct (Z.eqb_spec
                (Math_floor
                   (random (S k) * inject_Z (Z.of_nat (length nodes)))%Q) i)
      as [E | E]; cbn [negb].
    + exists [ring], (S (S k)).
      repeat split; auto; simpl; auto.
    + destruct (idAt_found _ Hidx) as (extra & Hextra & Hide & Hine).
      rewrite Hide. cbn [bind].
      exists [ring; {| NetworkGraph.source := NetworkGraph.id node;
                       NetworkGraph.target := NetworkGraph.id extra;
                       NetworkGraph.value := 1 |}], (S (S k)).
      rewrite <- app_assoc.
      split; [exact Hnext | split; [reflexivity | split; [reflexivity |]]].
      split; [simpl; lia |].
      split; [repeat constructor; assumption |].
      split.
      * intros Hnd H2. constructor; [now apply Hringloop |].
        constructor; [| constructor].
        unfold notLoop. simpl.
        apply (ids_differ _ _ _ _ Hnd Hnode Hextra).
        unfold i in E. lia.
      * intros H1. exfalso. lia.
  - exists [ring], (S k).
    repeat split; auto; simpl; auto.
Qed.

(** The whole [forEach], from any point of the traversal on. *)
Lemma eachNode_all (rest done : list NetworkGraph.D3Node) (k : nat)
    (acc : list NetworkGraph.D3Link) :
  nodes = done ++ rest ->
  exists added,
    NetworkGraph.eachNode random nodes rest (Z.of_nat (length done)) k acc
    = Returned (acc ++ added)
    /\ (length rest <= length added <= 2 * length rest)%nat
    /\ Forall (linkWithin nodes) added
    /\ (NoDup (map NetworkGraph.id nodes) -> (2 <= length nodes)%nat ->
        Forall notLoop added)
    /\ ((length nodes = 1)%nat -> length added = length rest)
    /\ (forall j node,
          nth_error rest j = Some node ->
          exists next,
            nth_error nodes
              (Z.to_nat ((Z.of_nat (length done + j) + 1)
                         mod Z.of_nat (length nodes)))
            = Some next
            /\ In {| NetworkGraph.source := NetworkGraph.id node;
                     NetworkGraph.target := NetworkGraph.id next;
                     NetworkGraph.value := 1 |} added).
Proof.
  revert done k acc.
  induction rest as [| node rest IH]; intros done k acc Hsplit.
  - exists []. rewrite app_nil_r. simpl.
    repeat split; auto. intros [| j] node' H; discriminate.
  - destruct (eachNode_round done rest node k acc Hsplit)
      as (next & pushed & k' & Hnext & Hstep & Hhd & Hlen & Hwithin & Hloop & Hone).
    cbv zeta in Hstep. rewrite Hstep.
    assert (Hsplit' : nodes = (done ++ [node]) ++ rest)
      by (now rewrite <- app_assoc).
    destruct (IH (done ++ [node]) k' (acc ++ pushed) Hsplit')
      as (added & Hrun & Hlen' & Hwithin' & Hloop' & Hone' & Hring').
    replace (Z.of_nat (length done) + 1) with (Z.of_nat (length (done ++ [node])))
      by (rewrite length_app; simpl; lia).
    rewrite Hrun. exists (pushed ++ added).
    split; [now rewrite app_assoc |].
    split; [rewrite length_app; simpl; lia |].
    split; [apply Forall_app; split; assumption |].
    split; [intros Hnd H2; apply Forall_app; split; auto |].
    split; [intros H1; rewrite length_app, (Hone H1), (Hone' H1); reflexivity |].
    intros [| j] node' Hj.
    + injection Hj as <-. exists next.
      rewrite Nat.add_0_r. split; [exact Hnext |].
      apply in_or_app. left.
      destruct pushed as [| l pushed]; [discriminate |].
      injection Hhd as ->. now left.
    + destruct (Hring' j node' Hj) as (next' & Hn' & Hin').
      exists next'. split.
      * rewrite <- Hn'. do 3 f_equal. rewrite length_app. simpl. lia.
      * apply in_or_app. now right.
Qed.

End Links.

Lemma makeNodes_nth (random : nat -> Q) (nodeCount : Z) (j : nat)
    (node : NetworkGraph.D3Node) :
  nth_error (NetworkGraph.makeNodes random nodeCount) j = Some node ->
  (j < Z.to_nat nodeCount)%nat
  /\ NetworkGraph.id node = ("node-" ++ toString (Z.of_nat j))%string.
Proof.
  intros H.
  assert (Hj : (j < Z.to_nat nodeCount)%nat).
  { assert (Hs : nth_error (NetworkGraph.makeNodes random nodeCount) j <> None)
      by congruence.
    apply nth_error_Some in Hs.
    unfold NetworkGraph.makeNodes in Hs.
    now rewrite length_map, length_seq in Hs. }
  split; [exact Hj |].
  unfold NetworkGraph.makeNodes in H. rewrite nth_error_map in H.
  destruct (nth_error (seq 0 (Z.to_nat nodeCount)) j) as [i |] eqn:E;
    [| discriminate].
  apply (nth_error_nth _ _ 0%nat) in E. rewrite seq_nth in E by exact Hj.
  simpl in E. subst i. injection H as <-. reflexivity.
Qed.

Lemma data_links (random : nat -> Q) (nodeCount : Z) :
  (forall k, (0 <= random k < 1)%Q) ->
  exists links,
    NetworkGraph.data random nodeCount
    = Returned {| NetworkGraph.nodes := NetworkGraph.makeNodes random nodeCount;
                  NetworkGraph.links := links |}
    /\ NetworkGraph.eachNode random (NetworkGraph.makeNodes random nodeCount)
         (NetworkGraph.makeNodes random nodeCount) 0
         (length (NetworkGraph.makeNodes random nodeCount)) []
       = Returned links.
Proof.
  intros Hr.
  destruct (eachNode_all random Hr (NetworkGraph.makeNodes random nodeCount)
              (NetworkGraph.makeNodes random nodeCount) []
              (length (NetworkGraph.makeNodes random nodeCount)) [] eq_refl)
    as (added & Hrun & _).
  simpl in Hrun. exists added. unfold NetworkGraph.data. cbv zeta.
  rewrite Hrun. split; reflexivity.
Qed.

(** X17: for draws in [[0, 1)] building the graph data never reads a
    missing node: it returns the nodes with between [nodeCount] and
    [2 * nodeCount] links of weight 1, every link joins two of the nodes,
    and every node [node-i] has its ring link to [node-((i + 1) mod
    nodeCount)]. *)
Theorem graph_links (random : nat -> Q) (nodeCount : Z) :
  (forall k, (0 <= random k < 1)%Q) ->
  exists links,
    NetworkGraph.data random nodeCount
    = Returned {| NetworkGraph.nodes := NetworkGraph.makeNodes random nodeCount;
                  NetworkGraph.links := links |}
    /\ (Z.to_nat nodeCount <= length links <= 2 * Z.to_nat nodeCount)%nat
    /\ Forall (linkWithin (NetworkGraph.makeNodes random nodeCount)) links
    /\ (forall i : Z,
          0 <= i < nodeCount ->
          In {| NetworkGraph.source := ("node-" ++ toString i)%string;
                NetworkGraph.target :=
                  ("node-" ++ toString ((i + 1) mod nodeCount))%string;
                NetworkGraph.value := 1 |} links).
Proof.
  intros Hr.
  destruct (data_links random nodeCount Hr) as (links & Hdata & Hrun).
  exists links. split; [exact Hdata |].
  destruct (eachNode_all random Hr (NetworkGraph.makeNodes random nodeCount)
              (NetworkGraph.makeNodes random nodeCount) []
              (length (NetworkGraph.makeNodes random nodeCount)) [] eq_refl)
    as (added & Hrun' & Hlen & Hwithin & _ & _ & Hring).
  simpl in Hrun'. rewrite Hrun in Hrun'. injection Hrun' as <-.
  assert (Hn : length (NetworkGraph.makeNodes random nodeCount)
               = Z.to_nat nodeCount)
    by (unfold NetworkGraph.makeNodes; now rewrite length_map, length_seq).
  rewrite Hn in Hlen, Hring.
  split; [exact Hlen | split; [exact Hwithin |]].
  intros i Hi.
  destruct (nth_error (NetworkGraph.makeNodes random nodeCount) (Z.to_nat i))
    as [node |] eqn:E;
    [| apply nth_error_None in E; rewrite Hn in E; lia].
  cbn [length Nat.add] in Hring.
  destruct (Hring (Z.to_nat i) node E) as (next & Hnext & Hin).
  rewrite (Z2Nat.id i), (Z2Nat.id nodeCount) in Hnext by lia.
  destruct (makeNodes_nth _ _ _ _ E) as [_ Hid].
  destruct (makeNodes_nth _ _ _ _ Hnext) as [_ Hid'].
  rewrite Z2Nat.id in Hid by lia.
  rewrite Z2Nat.id in Hid' by (apply Z.mod_pos_bound; lia).
  rewrite Hid, Hid' in Hin. exact Hin.
Qed.

Lemma graph_links_witness :
  exists links,
    NetworkGraph.data eagerDraws 30
    = Returned {| NetworkGraph.nodes := NetworkGraph.makeNodes eagerDraws 30;
                  NetworkGraph.links := links |}
    /\ (30 <= length links <= 60)%nat.
Proof.
  destruct (graph_links eagerDraws 30) as (links & Hdata & Hlen & _).
  - intros k. unfold eagerDraws.
    destruct (Nat.even k); split; (reflexivity || (vm_compute; discriminate)).
  - exists links. split; [exact Hdata | exact Hlen].
Defined.

(** X18: with two nodes or more, and draws in [[0, 1)], no link of the
    graph data joins a node to itself; with a single node the data holds
    exactly one link, from [node-0] to itself; and with a count of zero or
    less it holds no node and no link. *)
Theorem graph_loops (random : nat -> Q) (nodeCount : Z) :
  (forall k, (0 <= random k < 1)%Q) ->
  (2 <= nodeCount ->
   exists links,
     NetworkGraph.data random nodeCount
     = Returned {| NetworkGraph.nodes := NetworkGraph.makeNodes random nodeCount;
                   NetworkGraph.links := links |}
     /\ Forall notLoop links)
  /\ (nodeCount = 1 ->
      NetworkGraph.data random nodeCount
      = Returned {| NetworkGraph.nodes := NetworkGraph.makeNodes random nodeCount;
                    NetworkGraph.links :=
                      [{| NetworkGraph.source := "node-0"%string;
                          NetworkGraph.target := "node-0"%string;
                          NetworkGraph.value := 1 |}] |})
  /\ (nodeCount <= 0 ->
      NetworkGraph.data random nodeCount
      = Returned {| NetworkGraph.nodes := []; NetworkGraph.links := [] |}).
Proof.
  intros Hr.
  assert (Hn : length (NetworkGraph.makeNodes random nodeCount)
               = Z.to_nat nodeCount)
    by (unfold NetworkGraph.makeNodes; now rewrite length_map, length_seq).
  split; [| split].
  - intros H2.
    destruct (data_links random nodeCount Hr) as (links & Hdata & Hrun).
    exists links. split; [exact Hdata |].
    destruct (eachNode_all random Hr (NetworkGraph.makeNodes random nodeCount)
                (NetworkGraph.makeNodes random nodeCount) []
                (length (NetworkGraph.makeNodes random nodeCount)) [] eq_refl)
      as (added & Hrun' & _ & _ & Hloop & _).
    simpl in Hrun'. rewrite Hrun in Hrun'. injection Hrun' as <-.
    apply Hloop; [apply makeNodes_NoDup | rewrite Hn; lia].
  - intros ->. unfold NetworkGraph.data. cbv zeta.
    change (NetworkGraph.makeNodes random 1)
      with [NetworkGraph.nodeAt (random 0%nat) 0].
    cbn [NetworkGraph.eachNode length].
    change ((0 + 1) mod Z.of_nat 1) with 0.
    change (NetworkGraph.idAt [NetworkGraph.nodeAt (random 0%nat) 0] 0)
      with (@Returned string "node-0"%string).
    cbn [bind].
    destruct (num_gt (random 1%nat) 0.7); [| reflexivity].
    pose proof (floor_draw_index (random 2%nat) (Z.of_nat 1) (Hr 2%nat)
                  ltac:(lia)) as Hidx.
    replace (Math_floor (random 2%nat * inject_Z (Z.of_nat 1))%Q) with 0
      by lia.
    reflexivity.
  - intros H0. unfold NetworkGraph.data, NetworkGraph.makeNodes.
    replace (Z.to_nat nodeCount) with 0%nat by lia. reflexivity.
Qed.

Lemma graph_loops_witness :
  NetworkGraph.data eagerDraws 1
  = Returned {| NetworkGraph.nodes := NetworkGraph.makeNodes eagerDraws 1;
                NetworkGraph.links :=
                  [{| NetworkGraph.source := "node-0"%string;
                      NetworkGraph.target := "node-0"%string;
                      NetworkGraph.value := 1 |}] |}.
Proof.
  destruct (graph_loops eagerDraws 1) as (_ & Hone & _).
  - intros k. unfold eagerDraws.
    destruct (Nat.even k); split; (reflexivity || (vm_compute; discriminate)).
  - exact (Hone eq_refl).
Defined.

(** ** What the log holds *)

Lemma Forall_pushLog (P : LogEntry -> Prop) (e : LogEntry)
    (l : list LogEntry) :
  Forall P l -> P e -> Forall P (pushLog e l).
Proof.
  intros Hl He. rewrite pushLog_skipn. unfold pushKeeping.
  apply Forall_app. split; [| now constructor].
  rewrite <- (firstn_skipn (length l - 49) l) in Hl.
  now apply Forall_app in Hl.
Qed.

(** X19: no entry of type ERROR ever enters the log: in every state
    reached from start-up every entry is of type INFO, WARNING, SYSTEM or
    AI, and its timestamp is the one [timeString] gives for some clock
    reading. *)
Theorem log_never_holds_error (evs : list Event) :
  Forall (fun e => type e <> ERROR
                   /\ exists now, timestamp e = timeString now)
    (logs (run initialState evs)).
Proof.
  apply (run_invariant
           (fun st => Forall (fun e => type e <> ERROR
                                       /\ exists now, timestamp e = timeString now)
                        (logs st)));
    [| constructor].
  intros st ev H.
  destruct ev; simpl; try exact H;
    try (apply Forall_pushLog; [exact H |]; simpl;
         split; [discriminate | now exists now]).
  - destruct (autoScale st); [| exact H].
    unfold scaleTick.
    destruct (scaleDecision _ _) as [[next reason] |]; [| exact H].
    simpl. apply Forall_pushLog; [exact H |]. simpl.
    split; [discriminate | now exists now].
  - destruct thought; simpl; [| exact H].
    apply Forall_pushLog; [exact H |]. simpl.
    split; [discriminate | now exists now].
Qed.

(** ** The simulated load *)

Lemma tick_raw_cpu_floor (rCpu : Q) (nodes : Z) (load : Q) :
  (0 <= rCpu)%Q -> MIN_NODES <= nodes -> (0 <= load)%Q ->
  (10 <= 10 + inject_Z nodes / 2 + load + (rCpu - 0.5) * 10)%Q.
Proof.
  intros Hr Hn Hl.
  pose proof (inject_Z_le _ _ Hn) as Hq.
  change (inject_Z MIN_NODES) with 10%Q in Hq.
  assert (Hhalf : (5 <= inject_Z nodes / 2)%Q).
  { apply Qle_shift_div_l; [reflexivity | lra]. }
  lra.
Qed.

Lemma tick_cpu_unclamped_below (rCpu rMem rLat : Q) (nodes : Z) (load : Q)
    (prev : SystemMetrics) :
  (0 <= rCpu)%Q -> MIN_NODES <= nodes -> (0 <= load)%Q ->
  cpuLoad (nextMetrics rCpu rMem rLat nodes load prev)
  = Math_min 100 (10 + inject_Z nodes / 2 + load + (rCpu - 0.5) * 10)%Q
  /\ (10 <= cpuLoad (nextMetrics rCpu rMem rLat nodes load prev) <= 100)%Q.
Proof.
  intros Hr Hn Hl.
  pose proof (tick_raw_cpu_floor rCpu nodes load Hr Hn Hl) as Hraw.
  rewrite nextMetrics_cpuLoad.
  set (raw := (10 + inject_Z nodes / 2 + load + (rCpu - 0.5) * 10)%Q) in *.
  assert (Hmax : Math_max 5 raw = raw).
  { destruct (Math_max_cases 5 raw) as [[_ E] | [H _]]; [exact E | lra]. }
  rewrite Hmax. split; [reflexivity |].
  destruct (Math_min_cases 100 raw) as [[H E] | [H E]]; rewrite E; lra.
Qed.

(** X20: with at least [MIN_NODES] nodes, a non-negative injected load
    and a draw in [[0, 1)], the lower clamp of the cpu load never acts:
    the new cpu load is [min(100, 10 + nodes / 2 + load + noise)] and is
    at least 10; in particular, for 30 nodes without injected load it lies
    in [[20, 30]]. *)
Theorem tick_cpu_formula (rCpu rMem rLat : Q) (nodes : Z) (load : Q)
    (prev : SystemMetrics) :
  (0 <= rCpu < 1)%Q -> MIN_NODES <= nodes -> (0 <= load)%Q ->
  (cpuLoad (nextMetrics rCpu rMem rLat nodes load prev)
   == Math_min 100 (10 + inject_Z nodes / 2 + load + (rCpu - 0.5) * 10))%Q
  /\ (10 <= cpuLoad (nextMetrics rCpu rMem rLat nodes load prev) <= 100)%Q
  /\ (nodes = 30 -> (load == 0)%Q ->
      (20 <= cpuLoad (nextMetrics rCpu rMem rLat nodes load prev) <= 30)%Q).
Proof.
  intros Hr Hn Hl.
  destruct (tick_cpu_unclamped_below rCpu rMem rLat nodes load prev
              (proj1 Hr) Hn Hl) as [E Hc].
  split; [now rewrite E | split; [exact Hc |]].
  intros -> Hz. rewrite E.
  set (raw := (10 + inject_Z 30 / 2 + load + (rCpu - 0.5) * 10)%Q).
  assert (Hraw30 : (raw == 25 + (rCpu - 0.5) * 10)%Q).
  { unfold raw. rewrite Hz. change (inject_Z 30) with 30%Q. field. }
  destruct (Math_min_cases 100 raw) as [[H E'] | [H E']]; rewrite E'; lra.
Qed.

Lemma tick_cpu_formula_witness :
  (20 <= cpuLoad (nextMetrics 0.75 0.5 0.5 30 0 initialMetrics) <= 30)%Q.
Proof.
  apply (tick_cpu_formula 0.75 0.5 0.5 30 0 initialMetrics).
  - split; [vm_compute; discriminate | reflexivity].
  - vm_compute. discriminate.
  - vm_compute. discriminate.
  - reflexivity.
  - reflexivity.
Defined.

